(** * EIP-712 signing SDK: signature verification, signature collection,
      nonce tracking and message construction

    A shallow embedding of the TypeScript sources
      - [src/strategies/MultiSignStrategy.ts], [src/strategies/SingleSignStrategy.ts]
      - [src/utils/verification.ts]
      - [src/walletexten/mixwallet.ts], [src/walletexten/hooks.ts], [src/walletexten/signing.ts]
      - [src/core/DomainConfig.ts], [src/core/NonceManager.ts], [src/core/MessageFactory.ts]
    and the properties of the specification that are stated about them.

    Conventions.
      - A JavaScript computation that may throw is a value of [Outcome A].
      - [async] functions are sequential here: every [await] is on a call
        that is itself run to completion, so a promise is its outcome.
      - [number] and [bigint] values that the code uses as integers are [Z].
      - [ethers.verifyTypedData], the wallets and the wall clock are not
        code of this repository; they are parameters of the model. *)

From Stdlib Require Import ZArith Lia Ascii String DecimalString DecimalPos DecimalZ.
From stdpp Require Import gmap strings list.

Open Scope string_scope.
Open Scope Z_scope.

(** ** JavaScript preliminaries *)

(** A thrown value: an [Error] object with its message, or anything else
    (the sources test [error instanceof Error]). *)
Inductive Thrown : Type :=
| ErrorObj (msg : string)
| NonError.

Inductive Outcome (A : Type) : Type :=
| Ok (a : A)
| Throw (e : Thrown).
Arguments Ok {A} a.
Arguments Throw {A} e.

Definition obind {A B} (m : Outcome A) (k : A -> Outcome B) : Outcome B :=
  match m with
  | Ok a => k a
  | Throw e => Throw e
  end.

(** [try { m } catch (error) { h error }] *)
Definition try_catch {A} (m : Outcome A) (h : Thrown -> Outcome A) : Outcome A :=
  match m with
  | Ok a => Ok a
  | Throw e => h e
  end.

#[global] Instance Outcome_ret : MRet Outcome := @Ok.
#[global] Instance Outcome_bind : MBind Outcome := fun A B k m => obind m k.

(** [error instanceof Error ? error.message : 'Unknown error'] *)
Definition error_message (e : Thrown) : string :=
  match e with
  | ErrorObj m => m
  | NonError => "Unknown error"
  end.

(** [String.prototype.toLowerCase], on the ASCII range (addresses are
    hexadecimal strings). *)
Definition lower_ascii (c : ascii) : ascii :=
  let n := nat_of_ascii c in
  if (Nat.leb 65 n && Nat.leb n 90)%bool then ascii_of_nat (n + 32) else c.

Fixpoint toLowerCase (s : string) : string :=
  match s with
  | EmptyString => EmptyString
  | String c s' => String (lower_ascii c) (toLowerCase s')
  end.

(** [x.toLowerCase()] where [x] may be [undefined]: a TypeError. *)
Definition toLowerCase_opt (x : option string) : Outcome string :=
  match x with
  | Some s => Ok (toLowerCase s)
  | None => Throw (ErrorObj "Cannot read properties of undefined (reading 'toLowerCase')")
  end.

(** [Array.prototype.join] *)
Fixpoint join (sep : string) (l : list string) : string :=
  match l with
  | [] => ""
  | [x] => x
  | x :: rest => x ++ sep ++ join sep rest
  end.

(** ** Messages ([src/interfaces/SignableMessage.ts]) *)

(** The values a message field holds ([Record<string, unknown>]). *)
Inductive JsValue : Type :=
| JsString (s : string)
| JsNumber (n : Z)
| JsBigInt (n : Z)
| JsUndefined.

Record EIP712Domain : Type := {
  name : string;
  version : string;
  chainId : Z;
  verifyingContract : string
}.

Record TypeField : Type := { tf_name : string; tf_type : string }.

(** A JavaScript object used as a record keeps its keys in insertion order. *)
Definition EIP712Types : Type := list (string * list TypeField).
Definition Fields : Type := list (string * JsValue).

Record SignableMessage : Type := {
  domain : EIP712Domain;
  types : EIP712Types;
  primaryType : string;
  message : Fields
}.

(** ** Signature results ([src/interfaces/SignerStrategy.ts]) *)

Record SingleSignature : Type := {
  signature : string;
  signer : string;
  ss_message : SignableMessage
}.

Record SignatureAggregate : Type := {
  signatures : list string;
  signers : list string;
  threshold : Z;
  sa_message : SignableMessage;
  aggregateSignature : option string
}.

(** [type SignatureResult = SingleSignature | SignatureAggregate]; a
    [SingleSignature] has no [signatures] property. *)
Inductive SignatureResult : Type :=
| Single (s : SingleSignature)
| Aggregate (a : SignatureAggregate).

Inductive AggregationMethod : Type := ecdsa | schnorr.

Record MultiSignConfig : Type := {
  cfg_threshold : Z;
  cfg_signers : list string;
  cfg_aggregationMethod : option AggregationMethod
}.

(** ** The strategies *)

Section Strategies.

(** [ethers.verifyTypedData(domain, types, value, signature)]: the
    recovered address, or a throw on a malformed signature. *)
Variable verifyTypedData :
  EIP712Domain -> EIP712Types -> Fields -> string -> Outcome string.

(** The same call when the signature argument is [undefined] (a
    [SignatureAggregate] read as a [SingleSignature]). *)
Variable verifyTypedData_undefined :
  EIP712Domain -> EIP712Types -> Fields -> Outcome string.

(** [recoverSigner] of both strategies: the library's error is rethrown
    with a prefix. *)
Definition recoverSigner (m : SignableMessage) (sig : string) : Outcome string :=
  try_catch
    (verifyTypedData (domain m) (types m) (message m) sig)
    (fun error => Throw (ErrorObj ("Failed to recover signer: " ++ error_message error))).

(** *** [SingleSignStrategy] *)

Definition SingleSign_verifySignature (sig : SignatureResult) : Outcome bool :=
  match sig with
  | Aggregate a =>
      if (1 <? length (signatures a))%nat then Ok false
      else
        (* [signature as SingleSignature]: [.signature] and [.signer] are
           undefined on an aggregate *)
        try_catch
          (recoveredAddress ← try_catch
             (verifyTypedData_undefined (domain (sa_message a)) (types (sa_message a))
                (message (sa_message a)))
             (fun error => Throw (ErrorObj ("Failed to recover signer: " ++ error_message error)));
           expected ← toLowerCase_opt None;
           Ok (String.eqb (toLowerCase recoveredAddress) expected))
          (fun _ => Ok false)
  | Single singleSig =>
      try_catch
        (recoveredAddress ← recoverSigner (ss_message singleSig) (signature singleSig);
         expected ← toLowerCase_opt (Some (signer singleSig));
         Ok (String.eqb (toLowerCase recoveredAddress) expected))
        (fun _ => Ok false)
  end.

(** *** [MultiSignStrategy] *)

Record MultiSignStrategy : Type := {
  config : MultiSignConfig;
  aggregationMethod : AggregationMethod
}.

(** The body of the [for] loop of [verifyIndividualSignatures], inside
    its [try]: [true] when the pair at index [i] is to be counted. *)
Definition verify_pair (multiSig : SignatureAggregate) (i : nat) : Outcome bool :=
  match signatures multiSig !! i with
  | None => Ok false
  | Some sig =>
      let expectedSigner := signers multiSig !! i in
      recoveredSigner ← recoverSigner (sa_message multiSig) sig;
      expected ← toLowerCase_opt expectedSigner;
      Ok (String.eqb (toLowerCase recoveredSigner) expected)
  end.

(** [for (let i = 0; i < multiSig.signatures.length; i++)], as a loop
    over the indices still to visit. *)
Fixpoint verify_loop (multiSig : SignatureAggregate) (i todo : nat) (validCount : nat) : nat :=
  match todo with
  | O => validCount
  | S todo' =>
      match verify_pair multiSig i with
      | Ok true => verify_loop multiSig (S i) todo' (S validCount)
      | Ok false => verify_loop multiSig (S i) todo' validCount
      | Throw _ => (* catch: continue *) verify_loop multiSig (S i) todo' validCount
      end
  end.

Definition verifyIndividualSignatures (this : MultiSignStrategy)
    (multiSig : SignatureAggregate) : Outcome nat :=
  Ok (verify_loop multiSig 0 (length (signatures multiSig)) 0).

Definition MultiSign_verifySignature (this : MultiSignStrategy)
    (sig : SignatureResult) : Outcome bool :=
  match sig with
  | Single _ => Ok false                       (* [!signature.signatures] *)
  | Aggregate multiSig =>
      if (length (signatures multiSig) =? 0)%nat then Ok false
      else
        try_catch
          (if Z.of_nat (length (signatures multiSig)) <? threshold multiSig
           then Ok false
           else
             validSignatures ← verifyIndividualSignatures this multiSig;
             Ok (threshold multiSig <=? Z.of_nat validSignatures))
          (fun _ => Ok false)
  end.

(** *** [src/utils/verification.ts] *)

Definition verifySingleSignature (sig : SingleSignature) : Outcome bool :=
  try_catch
    (recoveredAddress ← verifyTypedData (domain (ss_message sig)) (types (ss_message sig))
                          (message (ss_message sig)) (signature sig);
     Ok (String.eqb (toLowerCase recoveredAddress) (toLowerCase (signer sig))))
    (fun error => Throw (ErrorObj ("Signature verification failed: " ++ error_message error))).

End Strategies.

(** [verifyMultiSignature] of [src/utils/verification.ts]: the same count
    without the guards of the strategy. *)
Section Verification.

Variable verifyTypedData :
  EIP712Domain -> EIP712Types -> Fields -> string -> Outcome string.

Definition util_verify_pair (sig : SignatureAggregate) (i : nat) : Outcome bool :=
  match signatures sig !! i with
  | None => Ok false
  | Some s =>
      let expectedSigner := signers sig !! i in
      recoveredAddress ← verifyTypedData (domain (sa_message sig)) (types (sa_message sig))
                           (message (sa_message sig)) s;
      expected ← toLowerCase_opt expectedSigner;
      Ok (String.eqb (toLowerCase recoveredAddress) expected)
  end.

Fixpoint util_verify_loop (sig : SignatureAggregate) (i todo : nat) (validSignatures : nat) : nat :=
  match todo with
  | O => validSignatures
  | S todo' =>
      match util_verify_pair sig i with
      | Ok true => util_verify_loop sig (S i) todo' (S validSignatures)
      | Ok false => util_verify_loop sig (S i) todo' validSignatures
      | Throw _ => util_verify_loop sig (S i) todo' validSignatures
      end
  end.

Definition verifyMultiSignature (sig : SignatureAggregate) : Outcome bool :=
  try_catch
    (Ok (threshold sig <=? Z.of_nat (util_verify_loop sig 0 (length (signatures sig)) 0)))
    (fun error => Throw (ErrorObj ("Signature verification failed: " ++ error_message error))).

End Verification.

(** ** Numbers as strings *)

(** [bigint.prototype.toString()], and [`${n}`] for an integral number:
    the decimal numeral, with a leading minus sign when negative. *)
Definition Z_toString (z : Z) : string := NilZero.string_of_int (Z.to_int z).

(** The decimal numerals among the strings [BigInt(s)] accepts. *)
Definition parse_decimal (s : string) : option Z :=
  option_map Z.of_int (NilZero.int_of_string s).

(** ** Wallets and signature collection
       ([src/walletexten/mixwallet.ts], [hooks.ts], [signing.ts]) *)

Module Wallets.

(** What a wallet does when asked: it belongs to the wallet backend, so
    a wallet is given by the outcomes of its two calls. *)
Record EngineDexWalletProvider : Type := {
  wallet_id : string;
  getAddress : Outcome (option string);          (* [string | null] *)
  signTypedData : SignableMessage -> Outcome string
}.

(** The entries of the collected array. *)
Record Collected : Type := {
  walletId : string;
  address : string;
  collected_signature : string
}.

(** Calls made on the wallets, in order. *)
Inductive WalletCall : Type :=
| CallGetAddress (walletId : string)
| CallSignTypedData (walletId : string).

(** [Map<string, EngineDexWalletProvider>]: iteration is in insertion
    order, [set] on a present key keeps its place. *)
Definition WalletMap : Type := list (string * EngineDexWalletProvider).

Fixpoint map_set (k : string) (v : EngineDexWalletProvider) (m : WalletMap) : WalletMap :=
  match m with
  | [] => [(k, v)]
  | (k', v') :: rest =>
      if String.eqb k' k then (k, v) :: rest else (k', v') :: map_set k v rest
  end.

Definition map_delete (k : string) (m : WalletMap) : WalletMap :=
  List.filter (fun kv => negb (String.eqb (fst kv) k)) m.

Definition map_size (m : WalletMap) : Z := Z.of_nat (length m).

(** [if (address)]: [null] and the empty string are falsy. *)
Definition truthy (a : option string) : option string :=
  match a with
  | Some s => if String.eqb s "" then None else Some s
  | None => None
  end.

(** The body of the [try] block shared by the three collectors:
    [Ok None] when the address is falsy. *)
Definition attempt (msg : SignableMessage) (walletId : string)
    (wallet : EngineDexWalletProvider) : list WalletCall * Outcome (option Collected) :=
  match getAddress wallet with
  | Throw e => ([CallGetAddress walletId], Throw e)
  | Ok a =>
      match truthy a with
      | None => ([CallGetAddress walletId], Ok None)
      | Some address =>
          match signTypedData wallet msg with
          | Throw e => ([CallGetAddress walletId; CallSignTypedData walletId], Throw e)
          | Ok sig =>
              ([CallGetAddress walletId; CallSignTypedData walletId],
               Ok (Some {| walletId := walletId; address := address;
                           collected_signature := sig |}))
          end
      end
  end.

(** *** [class MultiSignWalletManager] ([mixwallet.ts]) *)
Module MultiSignWalletManager.

Record t : Type := {
  connectedWallets : WalletMap;
  threshold : Z
}.

Definition new (threshold : option Z) : t :=
  {| connectedWallets := []; threshold := default 1 threshold |}.

Definition addWallet (wallet : EngineDexWalletProvider) (this : t) : t :=
  {| connectedWallets := map_set (wallet_id wallet) wallet (connectedWallets this);
     threshold := threshold this |}.

Definition removeWallet (walletId : string) (this : t) : t :=
  {| connectedWallets := map_delete walletId (connectedWallets this);
     threshold := threshold this |}.

Definition isThresholdMet (this : t) : bool :=
  threshold this <=? map_size (connectedWallets this).

Fixpoint collect_loop (msg : SignableMessage) (wallets : WalletMap)
    (signatures : list Collected) (calls : list WalletCall)
    : list Collected * list WalletCall :=
  match wallets with
  | [] => (signatures, calls)
  | (walletId, wallet) :: rest =>
      let '(cs, r) := attempt msg walletId wallet in
      match r with
      | Ok (Some entry) => collect_loop msg rest (signatures ++ [entry])%list (calls ++ cs)%list
      | Ok None => collect_loop msg rest signatures (calls ++ cs)%list
      | Throw _ => (* console.error *) collect_loop msg rest signatures (calls ++ cs)%list
      end
  end.

Definition collectSignatures (this : t) (msg : SignableMessage)
    : list WalletCall * Outcome (list Collected) :=
  let '(signatures, calls) := collect_loop msg (connectedWallets this) [] [] in
  (calls, Ok signatures).

End MultiSignWalletManager.

(** *** [useMultiSignWallet] ([hooks.ts]) *)
Module useMultiSignWallet.

Record t : Type := {
  connectedWallets : WalletMap;
  threshold : Z
}.

(** [config.multiSignThreshold || 1] *)
Definition new (multiSignThreshold : option Z) : t :=
  {| connectedWallets := [];
     threshold := match multiSignThreshold with
                  | Some n => if n =? 0 then 1 else n
                  | None => 1
                  end |}.

Definition addWallet (wallet : EngineDexWalletProvider) (this : t) : t :=
  {| connectedWallets := map_set (wallet_id wallet) wallet (connectedWallets this);
     threshold := threshold this |}.

Definition removeWallet (walletId : string) (this : t) : t :=
  {| connectedWallets := map_delete walletId (connectedWallets this);
     threshold := threshold this |}.

Definition isThresholdMet (this : t) : bool :=
  threshold this <=? map_size (connectedWallets this).

(** [errors]: the wallet id and the message of the recorded [Error]. *)
Fixpoint collect_loop (msg : SignableMessage) (wallets : WalletMap)
    (signatures : list Collected) (errors : list (string * string))
    (calls : list WalletCall)
    : list Collected * list (string * string) * list WalletCall :=
  match wallets with
  | [] => (signatures, errors, calls)
  | (walletId, wallet) :: rest =>
      let '(cs, r) := attempt msg walletId wallet in
      match r with
      | Ok (Some entry) =>
          collect_loop msg rest (signatures ++ [entry])%list errors (calls ++ cs)%list
      | Ok None =>
          collect_loop msg rest signatures
            (errors ++ [(walletId, "No address available")])%list (calls ++ cs)%list
      | Throw e =>
          collect_loop msg rest signatures
            (errors ++ [(walletId, error_message e)])%list (calls ++ cs)%list
      end
  end.

Definition collectSignatures (this : t) (msg : SignableMessage)
    : list WalletCall * Outcome (list Collected) :=
  let '(signatures, errors, calls) := collect_loop msg (connectedWallets this) [] [] [] in
  if ((0 <? length errors)%nat && (length signatures =? 0)%nat)%bool
  then (calls, Throw (ErrorObj ("Failed to collect signatures from all wallets: "
                                  ++ join ", " (List.map snd errors))))
  else (calls, Ok signatures).

End useMultiSignWallet.

(** *** [class WagmiMultiSignStrategy] ([signing.ts]) *)
Module WagmiMultiSignStrategy.

Record t : Type := {
  connectedWallets : WalletMap;
  threshold : Z
}.

Definition new (threshold : option Z) : t :=
  {| connectedWallets := []; threshold := default 1 threshold |}.

Definition addWallet (walletId : string) (wallet : EngineDexWalletProvider) (this : t) : t :=
  {| connectedWallets := map_set walletId wallet (connectedWallets this);
     threshold := threshold this |}.

Definition removeWallet (walletId : string) (this : t) : t :=
  {| connectedWallets := map_delete walletId (connectedWallets this);
     threshold := threshold this |}.

Definition isThresholdMet (this : t) : bool :=
  threshold this <=? map_size (connectedWallets this).

(** A failing wallet aborts the collection. *)
Fixpoint collect_loop (msg : SignableMessage) (wallets : WalletMap)
    (signatures : list Collected) (calls : list WalletCall)
    : list WalletCall * Outcome (list Collected) :=
  match wallets with
  | [] => (calls, Ok signatures)
  | (walletId, wallet) :: rest =>
      let '(cs, r) := attempt msg walletId wallet in
      match r with
      | Ok (Some entry) => collect_loop msg rest (signatures ++ [entry])%list (calls ++ cs)%list
      | Ok None => collect_loop msg rest signatures (calls ++ cs)%list
      | Throw _ =>
          ((calls ++ cs)%list,
           Throw (ErrorObj ("Failed to collect signature from wallet " ++ walletId)))
      end
  end.

Definition collectSignatures (this : t) (msg : SignableMessage)
    : list WalletCall * Outcome (list Collected) :=
  if negb (isThresholdMet this)
  then ([], Throw (ErrorObj ("Multi-sign threshold not met. Required: "
                               ++ Z_toString (threshold this) ++ ", Connected: "
                               ++ Z_toString (map_size (connectedWallets this)))))
  else collect_loop msg (connectedWallets this) [] [].

End WagmiMultiSignStrategy.

End Wallets.

(** ** The store: domain configurations, the nonce tracker, the clock *)

(** [interface NonceState]; [used] holds [nonce.toString()]. *)
Record NonceState : Type := {
  current : Z;
  used : gset string;
  lastUpdated : Z
}.

(** The fields of a [NonceManager] object. *)
Record NonceManagerObj : Type := {
  nonceState : NonceState;
  maxAge : Z
}.

(** [DomainConfig] objects live in a heap: a reference names one object,
    and every holder of the reference sees what is written through it.
    [clock k] is what the [k]-th call of [Date.now()] returns. *)
Record World : Type := {
  domainConfigs : gmap nat EIP712Domain;
  nonceManager : NonceManagerObj;
  clock : nat -> Z;
  ticks : nat
}.

Definition with_domainConfigs (h : gmap nat EIP712Domain) (w : World) : World :=
  {| domainConfigs := h; nonceManager := nonceManager w; clock := clock w; ticks := ticks w |}.

Definition with_nonceState (s : NonceState) (w : World) : World :=
  {| domainConfigs := domainConfigs w;
     nonceManager := {| nonceState := s; maxAge := maxAge (nonceManager w) |};
     clock := clock w; ticks := ticks w |}.

Definition with_nonceManager (m : NonceManagerObj) (w : World) : World :=
  {| domainConfigs := domainConfigs w; nonceManager := m; clock := clock w; ticks := ticks w |}.

(** A method: it may read and write the store, and may throw. *)
Definition M (A : Type) : Type := World -> Outcome A * World.

#[global] Instance M_ret : MRet M := fun A a w => (Ok a, w).
#[global] Instance M_bind : MBind M := fun A B k m w =>
  match m w with
  | (Ok a, w') => k a w'
  | (Throw e, w') => (Throw e, w')
  end.

Definition throw {A} (e : Thrown) : M A := fun w => (Throw e, w).

(** One more reading of the clock has been taken. *)
Definition tick (w : World) : World :=
  {| domainConfigs := domainConfigs w; nonceManager := nonceManager w;
     clock := clock w; ticks := S (ticks w) |}.

(** [Date.now()] *)
Definition Date_now : M Z := fun w => (Ok (clock w (ticks w)), tick w).

Definition get_nonceState : M NonceState := fun w => (Ok (nonceState (nonceManager w)), w).
Definition get_maxAge : M Z := fun w => (Ok (maxAge (nonceManager w)), w).
Definition put_nonceState (s : NonceState) : M unit := fun w => (Ok tt, with_nonceState s w).
Definition put_nonceManager (m : NonceManagerObj) : M unit := fun w =>
  (Ok tt, with_nonceManager m w).

(** *** [class DomainConfig] ([src/core/DomainConfig.ts]) *)
Module DomainConfig.

(** [this.domain], for the object at reference [this]. *)
Definition read (this : nat) : M EIP712Domain := fun w =>
  match domainConfigs w !! this with
  | Some d => (Ok d, w)
  | None => (Throw (ErrorObj "Cannot read properties of undefined (reading 'domain')"), w)
  end.

Definition write (this : nat) (d : EIP712Domain) : M unit := fun w =>
  (Ok tt, with_domainConfigs (<[this := d]> (domainConfigs w)) w).

(** [new DomainConfig(name = 'EngineDex', version = '1.0', chainId, verifyingContract)] *)
Definition new (name_ version_ : option string) (chainId_ : Z) (verifyingContract_ : string)
    : M nat := fun w =>
  let this := fresh (dom (domainConfigs w)) in
  (Ok this,
   with_domainConfigs
     (<[this := {| name := default "EngineDex" name_;
                   version := default "1.0" version_;
                   chainId := chainId_;
                   verifyingContract := verifyingContract_ |}]> (domainConfigs w)) w).

(** [return { ...this.domain }]: a copy. *)
Definition getDomain (this : nat) : M EIP712Domain :=
  d ← read this;
  mret {| name := name d; version := version d; chainId := chainId d;
          verifyingContract := verifyingContract d |}.

(** [(this.domain as any).chainId = chainId] *)
Definition updateChainId (chainId_ : Z) (this : nat) : M unit :=
  d ← read this;
  write this {| name := name d; version := version d; chainId := chainId_;
                verifyingContract := verifyingContract d |}.

(** [(this.domain as any).verifyingContract = verifyingContract] *)
Definition updateVerifyingContract (verifyingContract_ : string) (this : nat) : M unit :=
  d ← read this;
  write this {| name := name d; version := version d; chainId := chainId d;
                verifyingContract := verifyingContract_ |}.

Definition startsWith (p s : string) : bool := String.prefix p s.

Definition validate (this : nat) : M bool :=
  d ← read this;
  mret ((0 <? chainId d)
        && (String.length (verifyingContract d) =? 42)%nat
        && startsWith "0x" (verifyingContract d))%bool.

Definition toString (this : nat) : M string :=
  d ← read this;
  mret ("Domain(" ++ name d ++ " v" ++ version d ++ ", chainId: " ++ Z_toString (chainId d)
          ++ ", contract: " ++ verifyingContract d ++ ")").

End DomainConfig.

(** *** [class NonceManager] ([src/core/NonceManager.ts]) *)
Module NonceManager.

(** [new NonceManager(initialNonce = 0n, maxAge = 24 * 60 * 60 * 1000)] *)
Definition new (initialNonce maxAge_ : option Z) : M unit :=
  now ← Date_now;
  put_nonceManager
    {| nonceState := {| current := default 0 initialNonce; used := ∅; lastUpdated := now |};
       maxAge := default (24 * 60 * 60 * 1000) maxAge_ |}.

Definition cleanup : M unit :=
  now ← Date_now;
  s ← get_nonceState;
  maxAge_ ← get_maxAge;
  if maxAge_ <? now - lastUpdated s
  then put_nonceState {| current := current s; used := ∅; lastUpdated := now |}
  else mret tt.

Definition generateNonce : M Z :=
  _ ← cleanup;
  s ← get_nonceState;
  let nonce := current s in
  _ ← put_nonceState {| current := current s + 1; used := used s; lastUpdated := lastUpdated s |};
  now ← Date_now;
  s' ← get_nonceState;
  _ ← put_nonceState {| current := current s'; used := used s'; lastUpdated := now |};
  mret nonce.

Definition markNonceUsed (nonce : Z) : M unit :=
  _ ← cleanup;
  s ← get_nonceState;
  put_nonceState {| current := current s; used := {[ Z_toString nonce ]} ∪ used s;
                    lastUpdated := lastUpdated s |}.

Definition isNonceUsed (nonce : Z) : M bool :=
  _ ← cleanup;
  s ← get_nonceState;
  mret (bool_decide (Z_toString nonce ∈ used s)).

Definition isNonceValid (nonce : Z) : M bool :=
  s ← get_nonceState;
  mret (current s - 1000 <=? nonce).

(** [!this.isNonceUsed(nonce) && this.isNonceValid(nonce)] *)
Definition validateNonce (nonce : Z) : M bool :=
  _ ← cleanup;
  isUsed ← isNonceUsed nonce;
  if negb isUsed then isNonceValid nonce else mret false.

Definition getState : M NonceState :=
  _ ← cleanup;
  s ← get_nonceState;
  mret {| current := current s; used := used s; lastUpdated := lastUpdated s |}.

Definition reset (initialNonce : option Z) : M unit :=
  now ← Date_now;
  put_nonceState {| current := default 0 initialNonce; used := ∅; lastUpdated := now |}.

Definition syncWithBackend (backendNonce : Z) : M unit :=
  s ← get_nonceState;
  _ ← put_nonceState {| current := backendNonce + 1; used := used s;
                        lastUpdated := lastUpdated s |};
  now ← Date_now;
  s' ← get_nonceState;
  put_nonceState {| current := current s'; used := used s'; lastUpdated := now |}.

End NonceManager.

(** ** Operations ([src/types/operations.ts]) *)

Inductive Side : Type := buy | sell.
Inductive OrderKind : Type := limit | market.

Definition Side_string (s : Side) : string :=
  match s with buy => "buy" | sell => "sell" end.

Definition OrderKind_string (k : OrderKind) : string :=
  match k with limit => "limit" | market => "market" end.

(** [type SignableOperation]: every variant carries [nonce], [deadline]
    (bigint) and [owner]. *)
Inductive SignableOperation : Type :=
| DepositOperation (nonce deadline : Z) (owner : string) (amount : Z) (token : string)
| WithdrawalOperation (nonce deadline : Z) (owner : string) (amount : Z) (token to : string)
| OrderSubmissionOperation (nonce deadline : Z) (owner : string) (side : Side)
    (amount price : Z) (token : string) (orderType : OrderKind)
| OrderCancellationOperation (nonce deadline : Z) (owner : string) (orderId : string).

(** [operation.operation] *)
Definition operation (op : SignableOperation) : string :=
  match op with
  | DepositOperation _ _ _ _ _ => "Deposit"
  | WithdrawalOperation _ _ _ _ _ _ => "Withdrawal"
  | OrderSubmissionOperation _ _ _ _ _ _ _ _ => "OrderSubmission"
  | OrderCancellationOperation _ _ _ _ => "OrderCancellation"
  end.

Definition op_nonce (op : SignableOperation) : Z :=
  match op with
  | DepositOperation n _ _ _ _ | WithdrawalOperation n _ _ _ _ _
  | OrderSubmissionOperation n _ _ _ _ _ _ _ | OrderCancellationOperation n _ _ _ => n
  end.

Definition op_deadline (op : SignableOperation) : Z :=
  match op with
  | DepositOperation _ d _ _ _ | WithdrawalOperation _ d _ _ _ _
  | OrderSubmissionOperation _ d _ _ _ _ _ _ | OrderCancellationOperation _ d _ _ => d
  end.

Definition op_owner (op : SignableOperation) : string :=
  match op with
  | DepositOperation _ _ o _ _ | WithdrawalOperation _ _ o _ _ _
  | OrderSubmissionOperation _ _ o _ _ _ _ _ | OrderCancellationOperation _ _ o _ => o
  end.

(** ** Objects as field lists *)

(** [o.k = v]: overwrite in place, or add as the last key. *)
Fixpoint set_field (k : string) (v : JsValue) (o : Fields) : Fields :=
  match o with
  | [] => [(k, v)]
  | (k', v') :: rest =>
      if String.eqb k' k then (k, v) :: rest else (k', v') :: set_field k v rest
  end.

(** [o.k]: [undefined] for an absent key. *)
Fixpoint get_field (k : string) (o : Fields) : JsValue :=
  match o with
  | [] => JsUndefined
  | (k', v) :: rest => if String.eqb k' k then v else get_field k rest
  end.

(** [if (v)] *)
Definition truthy_value (v : JsValue) : bool :=
  match v with
  | JsString s => negb (String.eqb s "")
  | JsNumber n => negb (n =? 0)
  | JsBigInt n => negb (n =? 0)
  | JsUndefined => false
  end.

Definition lift {A} (o : Outcome A) : M A := fun w => (o, w).

(** ** [class MessageFactory] ([src/core/MessageFactory.ts]) *)
Module MessageFactory.

(** The factory holds a reference to its [DomainConfig]; its
    [NonceManager] is the tracker of the store. *)
Record t : Type := { domainConfig : nat }.

Record Validation : Type := { isValid : bool; errors : list string }.

Definition field (n ty : string) : TypeField := {| tf_name := n; tf_type := ty |}.

Definition baseTypes : EIP712Types :=
  [("EIP712Domain",
    [field "name" "string"; field "version" "string";
     field "chainId" "uint256"; field "verifyingContract" "address"])].

Definition getTypesForOperation (operation_ : string) : Outcome EIP712Types :=
  if String.eqb operation_ "Deposit" then
    Ok (baseTypes ++
        [("Deposit",
          [field "operation" "string"; field "nonce" "uint256"; field "deadline" "uint256";
           field "owner" "address"; field "amount" "uint256"; field "token" "address"])])%list
  else if String.eqb operation_ "Withdrawal" then
    Ok (baseTypes ++
        [("Withdrawal",
          [field "operation" "string"; field "nonce" "uint256"; field "deadline" "uint256";
           field "owner" "address"; field "amount" "uint256"; field "token" "address";
           field "to" "address"])])%list
  else if String.eqb operation_ "OrderSubmission" then
    Ok (baseTypes ++
        [("OrderSubmission",
          [field "operation" "string"; field "nonce" "uint256"; field "deadline" "uint256";
           field "owner" "address"; field "side" "string"; field "amount" "uint256";
           field "price" "uint256"; field "token" "address"; field "orderType" "string"])])%list
  else if String.eqb operation_ "OrderCancellation" then
    Ok (baseTypes ++
        [("OrderCancellation",
          [field "operation" "string"; field "nonce" "uint256"; field "deadline" "uint256";
           field "owner" "address"; field "orderId" "string"])])%list
  else Throw (ErrorObj ("Unknown operation type: " ++ operation_)).

Definition serializeOperation (op : SignableOperation) : Fields :=
  let message : Fields :=
    [("operation", JsString (operation op));
     ("nonce", JsString (Z_toString (op_nonce op)));
     ("deadline", JsString (Z_toString (op_deadline op)));
     ("owner", JsString (op_owner op))] in
  match op with
  | DepositOperation _ _ _ amount token =>
      set_field "token" (JsString token)
        (set_field "amount" (JsString (Z_toString amount)) message)
  | WithdrawalOperation _ _ _ amount token to =>
      set_field "to" (JsString to)
        (set_field "token" (JsString token)
           (set_field "amount" (JsString (Z_toString amount)) message))
  | OrderSubmissionOperation _ _ _ side amount price token orderType =>
      set_field "orderType" (JsString (OrderKind_string orderType))
        (set_field "token" (JsString token)
           (set_field "price" (JsString (Z_toString price))
              (set_field "amount" (JsString (Z_toString amount))
                 (set_field "side" (JsString (Side_string side)) message))))
  | OrderCancellationOperation _ _ _ orderId =>
      set_field "orderId" (JsString orderId) message
  end.

Definition createMessage (this : t) (op : SignableOperation) : M SignableMessage :=
  types_ ← lift (getTypesForOperation (operation op));
  let message_ := serializeOperation op in
  domain_ ← DomainConfig.getDomain (domainConfig this);
  mret {| domain := domain_; types := types_; primaryType := operation op;
          message := message_ |}.

(** [nonce ?? this.nonceManager.generateNonce()] *)
Definition nonce_or_generate (nonce : option Z) : M Z :=
  match nonce with
  | Some n => mret n
  | None => NonceManager.generateNonce
  end.

(** [deadline ?? BigInt(Math.floor(Date.now() / 1000) + 3600)] *)
Definition deadline_or_default (deadline : option Z) : M Z :=
  match deadline with
  | Some d => mret d
  | None => now ← Date_now; mret (now / 1000 + 3600)
  end.

Definition createDepositMessage (this : t) (owner : string) (amount : Z) (token : string)
    (nonce deadline : option Z) : M SignableMessage :=
  nonce_ ← nonce_or_generate nonce;
  deadline_ ← deadline_or_default deadline;
  createMessage this (DepositOperation nonce_ deadline_ owner amount token).

Definition createWithdrawalMessage (this : t) (owner : string) (amount : Z)
    (token to : string) (nonce deadline : option Z) : M SignableMessage :=
  nonce_ ← nonce_or_generate nonce;
  deadline_ ← deadline_or_default deadline;
  createMessage this (WithdrawalOperation nonce_ deadline_ owner amount token to).

Definition createOrderSubmissionMessage (this : t) (owner : string) (side : Side)
    (amount price : Z) (token : string) (orderType : OrderKind)
    (nonce deadline : option Z) : M SignableMessage :=
  nonce_ ← nonce_or_generate nonce;
  deadline_ ← deadline_or_default deadline;
  createMessage this
    (OrderSubmissionOperation nonce_ deadline_ owner side amount price token orderType).

Definition createOrderCancellationMessage (this : t) (owner orderId : string)
    (nonce deadline : option Z) : M SignableMessage :=
  nonce_ ← nonce_or_generate nonce;
  deadline_ ← deadline_or_default deadline;
  createMessage this (OrderCancellationOperation nonce_ deadline_ owner orderId).

Section Validate.

(** [BigInt(s)] on a string: the parsed integer, or a SyntaxError. *)
Variable BigInt_of_string : string -> Outcome Z.

Definition BigInt (v : JsValue) : Outcome Z :=
  match v with
  | JsString s => BigInt_of_string s
  | JsNumber n => Ok n
  | JsBigInt n => Ok n
  | JsUndefined => Throw (ErrorObj "Cannot convert undefined to a BigInt")
  end.

Definition push_unless (ok : bool) (e : string) (errors_ : list string) : list string :=
  if ok then errors_ else (errors_ ++ [e])%list.

Definition validateMessage (this : t) (msg : SignableMessage) : M Validation :=
  let errors0 : list string := [] in
  (* Check domain *)
  domainOk ← DomainConfig.validate (domainConfig this);
  let errors1 := push_unless domainOk "Invalid domain configuration" errors0 in
  (* Check message structure: [types] and [message] are objects *)
  let errors2 :=
    push_unless (negb (String.eqb (primaryType msg) "")) "Invalid message structure" errors1 in
  (* Check nonce *)
  errors3 ←
    (if truthy_value (get_field "nonce" (message msg)) then
       nonce ← lift (BigInt (get_field "nonce" (message msg)));
       nonceOk ← NonceManager.validateNonce nonce;
       mret (push_unless nonceOk "Invalid or used nonce" errors2)
     else mret errors2);
  (* Check deadline *)
  errors4 ←
    (if truthy_value (get_field "deadline" (message msg)) then
       deadline ← lift (BigInt (get_field "deadline" (message msg)));
       now_ms ← Date_now;
       let now := now_ms / 1000 in
       mret (push_unless (negb (deadline <=? now)) "Message deadline has passed" errors3)
     else mret errors3);
  mret {| isValid := (length errors4 =? 0)%nat; errors := errors4 |}.

End Validate.

End MessageFactory.

(** ** Specification-side notions *)

Section ValidCount.

Variable verifyTypedData :
  EIP712Domain -> EIP712Types -> Fields -> string -> Outcome string.

(** A (signature, claimed signer) pair is valid when recovery succeeds
    and the recovered address equals the claimed one up to letter case. *)
Definition pair_valid (m : SignableMessage) (p : string * string) : bool :=
  match verifyTypedData (domain m) (types m) (message m) (fst p) with
  | Ok recovered => String.eqb (toLowerCase recovered) (toLowerCase (snd p))
  | Throw _ => false
  end.

(** The number of valid index-aligned pairs of an aggregate. *)
Definition validCount (a : SignatureAggregate) : nat :=
  length (List.filter (pair_valid (sa_message a)) (zip (signatures a) (signers a))).

End ValidCount.

(** [signature.signatures], absent on a [SingleSignature]. *)
Definition signatures_of (sig : SignatureResult) : option (list string) :=
  match sig with
  | Single _ => None
  | Aggregate a => Some (signatures a)
  end.

(** The outcome of one signer in a collection round: its entry when it
    signs, else the message of its failure. *)
Definition signer_success (msg : SignableMessage)
    (kv : string * Wallets.EngineDexWalletProvider) : option Wallets.Collected :=
  match snd (Wallets.attempt msg (fst kv) (snd kv)) with
  | Ok (Some entry) => Some entry
  | Ok None => None
  | Throw _ => None
  end.

Definition signer_failure (msg : SignableMessage)
    (kv : string * Wallets.EngineDexWalletProvider) : option (string * string) :=
  match snd (Wallets.attempt msg (fst kv) (snd kv)) with
  | Ok (Some _) => None
  | Ok None => Some (fst kv, "No address available")
  | Throw e => Some (fst kv, error_message e)
  end.

(** The successful entries, and the failures, in signer-iteration order. *)
Definition successes (msg : SignableMessage) (wallets : Wallets.WalletMap)
    : list Wallets.Collected :=
  omap (signer_success msg) wallets.

Definition failures (msg : SignableMessage) (wallets : Wallets.WalletMap)
    : list (string * string) :=
  omap (signer_failure msg) wallets.

(** The wallet calls of a round that visits every signer. *)
Definition calls_of (msg : SignableMessage) (wallets : Wallets.WalletMap)
    : list Wallets.WalletCall :=
  List.concat (List.map (fun kv => fst (Wallets.attempt msg (fst kv) (snd kv))) wallets).

(** "Raises if and only if all signers fail": a collector throws exactly
    when no signer of the collection succeeds, and otherwise returns the
    successes in order. *)
Definition raises_iff_all_fail
    (collect : Wallets.WalletMap -> SignableMessage -> Outcome (list Wallets.Collected)) : Prop :=
  forall (wallets : Wallets.WalletMap) (msg : SignableMessage),
    ((exists e, collect wallets msg = Throw e) <-> successes msg wallets = [])
    /\ (successes msg wallets <> [] -> collect wallets msg = Ok (successes msg wallets)).

(** The tracker is within its max-age window at every clock reading from
    now on: no time-boxed reset is due. *)
Definition within_max_age (w : World) : Prop :=
  forall k : nat, (ticks w <= k)%nat ->
    clock w k - lastUpdated (nonceState (nonceManager w)) <= maxAge (nonceManager w).

(** [nonce] is in the used set of the tracker. *)
Definition marked_used (nonce : Z) (w : World) : bool :=
  bool_decide (Z_toString nonce ∈ used (nonceState (nonceManager w))).

(** The operations of the domain-configuration component on an object. *)
Inductive DomainOp : Type :=
| OpGetDomain
| OpUpdateChainId (chainId_ : Z)
| OpUpdateVerifyingContract (verifyingContract_ : string)
| OpValidate
| OpToString.

Definition run_DomainOp (op : DomainOp) (this : nat) : M unit :=
  match op with
  | OpGetDomain => _ ← DomainConfig.getDomain this; mret tt
  | OpUpdateChainId c => DomainConfig.updateChainId c this
  | OpUpdateVerifyingContract v => DomainConfig.updateVerifyingContract v this
  | OpValidate => _ ← DomainConfig.validate this; mret tt
  | OpToString => _ ← DomainConfig.toString this; mret tt
  end.

(** What an operation makes of the stored descriptor. *)
Definition DomainOp_effect (op : DomainOp) (d : EIP712Domain) : EIP712Domain :=
  match op with
  | OpUpdateChainId c =>
      {| name := name d; version := version d; chainId := c;
         verifyingContract := verifyingContract d |}
  | OpUpdateVerifyingContract v =>
      {| name := name d; version := version d; chainId := chainId d;
         verifyingContract := v |}
  | OpGetDomain | OpValidate | OpToString => d
  end.

(** The integer-valued fields that only some operations carry. *)
Definition op_amount (op : SignableOperation) : option Z :=
  match op with
  | DepositOperation _ _ _ a _ | WithdrawalOperation _ _ _ a _ _
  | OrderSubmissionOperation _ _ _ _ a _ _ _ => Some a
  | OrderCancellationOperation _ _ _ _ => None
  end.

Definition op_price (op : SignableOperation) : option Z :=
  match op with
  | OrderSubmissionOperation _ _ _ _ _ p _ _ => Some p
  | _ => None
  end.

(** The field value of an integer: its decimal numeral as a string; an
    operation without the field leaves it undefined. *)
Definition decimal_field (z : option Z) : JsValue :=
  match z with
  | Some n => JsString (Z_toString n)
  | None => JsUndefined
  end.

Definition is_string (v : JsValue) : bool :=
  match v with
  | JsString _ => true
  | _ => false
  end.

(** A method preserves a relation between the store before and after it. *)
Definition preserves (R : World -> World -> Prop) {A} (m : M A) : Prop :=
  forall w, R w (snd (m w)).

(** Whatever the clock reads, the counter, the max age, the domain
    configurations and the clock are left alone. *)
Definition counter_frame (w w' : World) : Prop :=
  current (nonceState (nonceManager w')) = current (nonceState (nonceManager w))
  /\ maxAge (nonceManager w') = maxAge (nonceManager w)
  /\ domainConfigs w' = domainConfigs w
  /\ clock w' = clock w.

(** Within the max-age window nothing but the count of clock readings moves. *)
Definition fresh_frame (w w' : World) : Prop :=
  within_max_age w ->
  nonceManager w' = nonceManager w /\ domainConfigs w' = domainConfigs w
  /\ clock w' = clock w /\ (ticks w <= ticks w')%nat.

(** ** Example data *)

Module Examples.

(** A stand-in for the recovery routine: the signature of the signer at
    address [a] is the text [a]; the empty text is malformed. *)
Definition recover (_ : EIP712Domain) (_ : EIP712Types) (_ : Fields) (sig : string)
    : Outcome string :=
  if String.eqb sig "" then Throw (ErrorObj "invalid signature length") else Ok sig.

Definition domain0 : EIP712Domain :=
  {| name := "EngineDex"; version := "1.0"; chainId := 1;
     verifyingContract := "0x1234567890123456789012345678901234567890" |}.

Definition msg0 : SignableMessage :=
  {| domain := domain0; types := []; primaryType := "Deposit";
     message := [("operation", JsString "Deposit")] |}.

Definition alice : string := "0xAAaa".
Definition bob : string := "0xBBbb".
Definition carol : string := "0xCCcc".

(** Two of three signatures are valid; the middle one is malformed. *)
Definition aggregate_2_of_3 : SignatureAggregate :=
  {| signatures := [alice; ""; carol];
     signers := ["0xaaaa"; "0xbbbb"; "0xcccc"];
     threshold := 2; sa_message := msg0; aggregateSignature := None |}.

(** One valid signature by a signer that the configuration does not list. *)
Definition aggregate_outsider : SignatureAggregate :=
  {| signatures := [carol]; signers := ["0xcccc"];
     threshold := 1; sa_message := msg0; aggregateSignature := None |}.

Definition strategy_alice_bob : MultiSignStrategy :=
  {| config := {| cfg_threshold := 1; cfg_signers := ["0xaaaa"; "0xbbbb"];
                  cfg_aggregationMethod := None |};
     aggregationMethod := ecdsa |}.

(** A wallet that signs, one whose user rejects the request, and one
    that has no account to offer. *)
Definition signing_wallet (wid addr : string) : Wallets.EngineDexWalletProvider :=
  {| Wallets.wallet_id := wid;
     Wallets.getAddress := Ok (Some addr);
     Wallets.signTypedData := fun _ => Ok addr |}.

Definition rejecting_wallet (wid addr : string) : Wallets.EngineDexWalletProvider :=
  {| Wallets.wallet_id := wid;
     Wallets.getAddress := Ok (Some addr);
     Wallets.signTypedData := fun _ => Throw (ErrorObj "User rejected the request") |}.

Definition locked_wallet (wid : string) : Wallets.EngineDexWalletProvider :=
  {| Wallets.wallet_id := wid;
     Wallets.getAddress := Ok None;
     Wallets.signTypedData := fun _ => Throw NonError |}.

(** A manager that requires two signers and has one connected. *)
Definition manager_1_of_2 : Wallets.MultiSignWalletManager.t :=
  Wallets.MultiSignWalletManager.addWallet (signing_wallet "w1" alice)
    (Wallets.MultiSignWalletManager.new (Some 2)).

Definition hook_1_of_2 : Wallets.useMultiSignWallet.t :=
  Wallets.useMultiSignWallet.addWallet (signing_wallet "w1" alice)
    (Wallets.useMultiSignWallet.new (Some 2)).

Definition wagmi_1_of_2 : Wallets.WagmiMultiSignStrategy.t :=
  Wallets.WagmiMultiSignStrategy.addWallet "w1" (signing_wallet "w1" alice)
    (Wallets.WagmiMultiSignStrategy.new (Some 2)).

(** [BigInt(s)] on decimal numerals. *)
Definition BigInt_of_string (s : string) : Outcome Z :=
  match parse_decimal s with
  | Some n => Ok n
  | None => Throw (ErrorObj ("Cannot convert " ++ s ++ " to a BigInt"))
  end.

(** A store whose tracker was last updated at time 0 with a max age of
    one second, nonce 5 marked used; the clock now reads 5000 ms. The
    domain configuration of the factory is at reference 0. *)
Definition stale_world : World :=
  {| domainConfigs := {[ 0%nat := domain0 ]};
     nonceManager := {| nonceState := {| current := 6; used := {[ "5" ]}; lastUpdated := 0 |};
                        maxAge := 1000 |};
     clock := fun _ => 5000;
     ticks := 0 |}.

(** The same store one tenth of a second after the last update. *)
Definition fresh_world : World :=
  {| domainConfigs := {[ 0%nat := domain0 ]};
     nonceManager := {| nonceState := {| current := 6; used := {[ "5" ]}; lastUpdated := 0 |};
                        maxAge := 1000 |};
     clock := fun _ => 100;
     ticks := 0 |}.

Definition factory0 : MessageFactory.t := {| MessageFactory.domainConfig := 0%nat |}.

Definition msg_nonce_5 : SignableMessage :=
  {| domain := domain0; types := []; primaryType := "Deposit";
     message := [("operation", JsString "Deposit"); ("nonce", JsString "5");
                 ("deadline", JsString "9999"); ("owner", JsString alice)] |}.

Definition deposit0 : SignableOperation :=
  DepositOperation 7 9999 alice 1000000000000000000 "0x0000000000000000000000000000000000000000".

(** Three signers, the second rejects. *)
Definition hook_3 : Wallets.useMultiSignWallet.t :=
  Wallets.useMultiSignWallet.addWallet (signing_wallet "w3" carol)
    (Wallets.useMultiSignWallet.addWallet (rejecting_wallet "w2" bob)
       (Wallets.useMultiSignWallet.addWallet (signing_wallet "w1" alice)
          (Wallets.useMultiSignWallet.new (Some 2)))).

End Examples.

(** ** Signing ([signMessage] of the two strategies) *)

Module WalletProviders.

(** [interface WalletConnection]; only [isConnected] is read. *)
Record WalletConnection : Type := {
  isConnected : bool;
  connection_chainId : Z
}.

(** [interface WalletProvider]: a provider is given by the outcomes of
    the calls that [signMessage] makes on it. *)
Record WalletProvider : Type := {
  getProviderName : string;
  getConnection : Outcome (option WalletConnection);   (* [WalletConnection | null] *)
  connect : Outcome WalletConnection;
  signTypedData : SignableMessage -> Outcome string
}.

(** [!connection || !connection.isConnected] *)
Definition needs_connect (connection : option WalletConnection) : bool :=
  match connection with
  | Some c => negb (isConnected c)
  | None => true
  end.

End WalletProviders.

Section Signing.

Import WalletProviders.

Variable verifyTypedData :
  EIP712Domain -> EIP712Types -> Fields -> string -> Outcome string.

(** The [try] block that both [signMessage] methods run on a provider:
    the signature and the signer recovered from it. *)
Definition sign_with (msg : SignableMessage) (provider : WalletProvider)
    : Outcome (string * string) :=
  connection ← getConnection provider;
  _ ← (if needs_connect connection then (_ ← connect provider; Ok tt) else Ok tt);
  signature_ ← signTypedData provider msg;
  signer_ ← recoverSigner verifyTypedData msg signature_;
  Ok (signature_, signer_).

(** [SingleSignStrategy.signMessage] *)
Definition SingleSign_signMessage (walletProvider : WalletProvider) (msg : SignableMessage)
    : Outcome SignatureResult :=
  try_catch
    (p ← sign_with msg walletProvider;
     Ok (Single {| signature := fst p; signer := snd p; ss_message := msg |}))
    (fun error => Throw (ErrorObj ("Single sign failed: " ++ error_message error))).

(** [aggregateSignatures]: both methods join the signatures. *)
Definition aggregateECDSASignatures (sigs : list string) : string := join "" sigs.
Definition aggregateSchnorrSignatures (sigs : list string) : string := join "" sigs.

Definition aggregateSignatures (this : MultiSignStrategy) (sigs : list string)
    (msg : SignableMessage) : string :=
  match aggregationMethod this with
  | ecdsa => aggregateECDSASignatures sigs
  | schnorr => aggregateSchnorrSignatures sigs
  end.

(** The [for] loop of [MultiSignStrategy.signMessage]. *)
Fixpoint sign_loop (msg : SignableMessage) (providers : list WalletProvider)
    (sigs signers_ errors_ : list string) : list string * list string * list string :=
  match providers with
  | [] => (sigs, signers_, errors_)
  | provider :: rest =>
      match sign_with msg provider with
      | Ok (signature_, signer_) =>
          sign_loop msg rest (sigs ++ [signature_])%list (signers_ ++ [signer_])%list errors_
      | Throw error =>
          sign_loop msg rest sigs signers_
            (errors_ ++ [("Signer " ++ getProviderName provider ++ " failed: "
                            ++ error_message error)%string])%list
      end
  end.

(** [MultiSignStrategy.signMessage]; the providers of the strategy are
    passed beside its configuration. *)
Definition MultiSign_signMessage (walletProviders : list WalletProvider)
    (this : MultiSignStrategy) (msg : SignableMessage) : Outcome SignatureResult :=
  let '(sigs, signers_, errors_) := sign_loop msg walletProviders [] [] [] in
  if Z.of_nat (length sigs) <? cfg_threshold (config this)
  then Throw (ErrorObj ("Insufficient signatures: " ++ Z_toString (Z.of_nat (length sigs))
                          ++ "/" ++ Z_toString (cfg_threshold (config this))
                          ++ ". Errors: " ++ join ", " errors_))
  else
    Ok (Aggregate {| signatures := sigs; signers := signers_;
                     threshold := cfg_threshold (config this);
                     sa_message := msg;
                     aggregateSignature := Some (aggregateSignatures this sigs msg) |}).

(** What one provider contributes: its (signature, signer) pair. *)
Definition signed_pairs (msg : SignableMessage) (providers : list WalletProvider)
    : list (string * string) :=
  omap (fun p => match sign_with msg p with Ok sp => Some sp | Throw _ => None end) providers.

Definition signing_errors (msg : SignableMessage) (providers : list WalletProvider)
    : list string :=
  omap (fun p => match sign_with msg p with
                 | Ok _ => None
                 | Throw error => Some ("Signer " ++ getProviderName p ++ " failed: "
                                          ++ error_message error)
                 end) providers.

End Signing.

(** ** Numbers and messages as the checks receive them *)

(** A JavaScript [number], as far as the checks tell numbers apart: an
    integer, a finite number strictly between an integer and the next,
    NaN, or an infinity. *)
Inductive JsNum : Type :=
| NumInt (z : Z)
| NumFrac (below : Z)
| NumNaN
| NumInfinity (positive : bool).

(** [n > 0] *)
Definition num_gt_0 (n : JsNum) : bool :=
  match n with
  | NumInt z => 0 <? z
  | NumFrac below => 0 <=? below
  | NumNaN => false
  | NumInfinity positive => positive
  end.

(** [n <= 0] *)
Definition num_le_0 (n : JsNum) : bool :=
  match n with
  | NumInt z => z <=? 0
  | NumFrac below => below <? 0
  | NumNaN => false
  | NumInfinity positive => negb positive
  end.

(** [Number.isInteger(n)] *)
Definition Number_isInteger (n : JsNum) : bool :=
  match n with
  | NumInt _ => true
  | _ => false
  end.

(** The domain and the message that a check is handed: the chain
    identifier is any number; [types] and [message] are objects. *)
Record DomainInput : Type := {
  in_name : string;
  in_version : string;
  in_chainId : JsNum;
  in_verifyingContract : string
}.

Record MessageInput : Type := {
  in_domain : DomainInput;
  in_primaryType : string
}.

(** ** Utilities ([src/utils/verification.ts] and the nonce helpers) *)

Module VerificationUtils.

Record Validation : Type := { isValid : bool; errors : list string }.

Definition push_if (bad : bool) (e : string) (errors_ : list string) : list string :=
  if bad then (errors_ ++ [e])%list else errors_.

(** [validateMessageStructure]; [domain], [types] and [message] are
    objects in every [SignableMessage]. *)
Definition validateMessageStructure (msg : MessageInput) : Validation :=
  let d := in_domain msg in
  let errors1 := push_if (String.eqb (in_name d) "") "Invalid domain name" [] in
  let errors2 := push_if (String.eqb (in_version d) "") "Invalid domain version" errors1 in
  let errors3 := push_if (num_le_0 (in_chainId d)) "Invalid chain ID" errors2 in
  let errors4 :=
    push_if (String.eqb (in_verifyingContract d) ""
             || negb (String.prefix "0x" (in_verifyingContract d)))%bool
      "Invalid verifying contract" errors3 in
  let errors5 := push_if (String.eqb (in_primaryType msg) "") "Invalid primary type" errors4 in
  {| isValid := (length errors5 =? 0)%nat; errors := errors5 |}.

(** [validateNonce(nonce, usedNonces)] *)
Definition validateNonce (nonce : Z) (usedNonces : gset string) : bool :=
  (negb (bool_decide (Z_toString nonce ∈ usedNonces)) && (0 <? nonce))%bool.

(** [validateDeadline(deadline)] *)
Definition validateDeadline (deadline : Z) : M bool :=
  now_ms ← Date_now;
  mret (now_ms / 1000 <? deadline).

(** The loop of [generateSecureNonce] over the random bytes. *)
Definition bytes_to_bigint (array : list Z) : Z :=
  fold_left (fun nonce b => Z.shiftl nonce 8 + b) array 0.

(** [generateSecureNonce], given what [crypto.getRandomValues] wrote into
    the 32-byte array. *)
Definition generateSecureNonce (random_bytes : list Z) : Z :=
  bytes_to_bigint (take 32 random_bytes).

(** [generateDeadline(secondsFromNow = 3600)] *)
Definition generateDeadline (secondsFromNow : option Z) : M Z :=
  now_ms ← Date_now;
  mret (now_ms / 1000 + default 3600 secondsFromNow).

End VerificationUtils.

(** ** Address and message checks of the wallet extension
       ([mixwallet.ts], [signing.ts], [errors.ts]) *)

Module WalletChecks.

(** The character class [[a-fA-F0-9]]. *)
Definition is_hex (c : ascii) : bool :=
  let n := nat_of_ascii c in
  ((Nat.leb 48 n && Nat.leb n 57) || (Nat.leb 65 n && Nat.leb n 70)
   || (Nat.leb 97 n && Nat.leb n 102))%bool.

Fixpoint all_hex (s : string) : bool :=
  match s with
  | EmptyString => true
  | String c rest => (is_hex c && all_hex rest)%bool
  end.

(** [/^0x[a-fA-F0-9]{n}$/.test(s)] *)
Definition matches_0x_hex (n : nat) (s : string) : bool :=
  match s with
  | String "0" (String "x" rest) => ((String.length rest =? n)%nat && all_hex rest)%bool
  | _ => false
  end.

(** [EngineDexWalletUtils.isValidAddress], [WagmiSecurityValidator.validateAddress] *)
Definition isValidAddress (address_ : string) : bool := matches_0x_hex 40 address_.

(** [WagmiSecurityValidator.validateChainId]:
    [Number.isInteger(chainId) && chainId > 0] *)
Definition validateChainId (chainId_ : JsNum) : bool :=
  (Number_isInteger chainId_ && num_gt_0 chainId_)%bool.

(** [WagmiSecurityValidator.validateDomain] *)
Definition validateDomain (d : DomainInput) : bool :=
  ((0 <? String.length (in_name d))%nat && (0 <? String.length (in_version d))%nat
   && validateChainId (in_chainId d) && isValidAddress (in_verifyingContract d))%bool.

(** [WagmiSingleSignStrategy.validateMessage] *)
Definition validateMessage (msg : MessageInput) : bool :=
  let d := in_domain msg in
  if (String.eqb (in_name d) "" || String.eqb (in_version d) "" || num_le_0 (in_chainId d)
      || String.eqb (in_verifyingContract d) ""
      || negb (matches_0x_hex 40 (in_verifyingContract d)))%bool
  then false
  else if String.eqb (in_primaryType msg) "" then false
  else true.

(** [String.prototype.slice(start, end)] *)
Definition slice_index (len i : Z) : Z :=
  if i <? 0 then Z.max (len + i) 0 else Z.min i len.

Definition slice (s : string) (start : Z) (end_ : option Z) : string :=
  let len := Z.of_nat (String.length s) in
  let from := slice_index len start in
  let to := match end_ with Some e => slice_index len e | None => len end in
  String.substring (Z.to_nat from) (Z.to_nat (to - from)) s.

(** [EngineDexWalletUtils.formatAddress(address, length = 6)] *)
Definition formatAddress (address_ : string) (length_ : option Z) : string :=
  let n := default 6 length_ in
  if negb (isValidAddress address_) then address_
  else slice address_ 0 (Some (n + 2)) ++ "..." ++ slice address_ (- n) None.

End WalletChecks.

(** ** Sequences of calls *)

(** [generateNonce()] called [k] times in a row: the nonces issued. *)
Fixpoint generate_many (k : nat) : M (list Z) :=
  match k with
  | O => mret []
  | S k' =>
      nonce ← NonceManager.generateNonce;
      rest ← generate_many k';
      mret (nonce :: rest)
  end.

(** The tracker is past its max age at the next clock reading. *)
Definition expired (w : World) : Prop :=
  maxAge (nonceManager w) < clock w (ticks w) - lastUpdated (nonceState (nonceManager w)).

(** From now on the clock readings stay within the max age of one
    another, and within an hour of one another. *)
Definition steady_clock (w : World) : Prop :=
  forall j k : nat, (ticks w <= j)%nat -> (ticks w <= k)%nat ->
    clock w k - clock w j <= maxAge (nonceManager w)
    /\ clock w k / 1000 < clock w j / 1000 + 3600.

(** [types[name]] *)
Fixpoint lookup_type (n : string) (t : EIP712Types) : option (list TypeField) :=
  match t with
  | [] => None
  | (k, fields) :: rest => if String.eqb k n then Some fields else lookup_type n rest
  end.

(** The four creators of [MessageFactory], by the operation they build. *)
Definition create_with (this : MessageFactory.t) (op_of : Z -> Z -> SignableOperation)
    (nonce deadline : option Z) : M SignableMessage :=
  nonce_ ← MessageFactory.nonce_or_generate nonce;
  deadline_ ← MessageFactory.deadline_or_default deadline;
  MessageFactory.createMessage this (op_of nonce_ deadline_).

(** A call of one of the four creators, with its own arguments. *)
Inductive Creator : Type :=
| CreateDeposit (owner : string) (amount : Z) (token : string)
| CreateWithdrawal (owner : string) (amount : Z) (token to : string)
| CreateOrderSubmission (owner : string) (side : Side) (amount price : Z) (token : string)
    (orderType : OrderKind)
| CreateOrderCancellation (owner orderId : string).

Definition run_creator (this : MessageFactory.t) (c : Creator) (nonce deadline : option Z)
    : M SignableMessage :=
  match c with
  | CreateDeposit owner amount token =>
      MessageFactory.createDepositMessage this owner amount token nonce deadline
  | CreateWithdrawal owner amount token to =>
      MessageFactory.createWithdrawalMessage this owner amount token to nonce deadline
  | CreateOrderSubmission owner side amount price token orderType =>
      MessageFactory.createOrderSubmissionMessage this owner side amount price token orderType
        nonce deadline
  | CreateOrderCancellation owner orderId =>
      MessageFactory.createOrderCancellationMessage this owner orderId nonce deadline
  end.

(** The operation a creator builds from the nonce and the deadline. *)
Definition creator_op (c : Creator) (nonce deadline : Z) : SignableOperation :=
  match c with
  | CreateDeposit owner amount token => DepositOperation nonce deadline owner amount token
  | CreateWithdrawal owner amount token to =>
      WithdrawalOperation nonce deadline owner amount token to
  | CreateOrderSubmission owner side amount price token orderType =>
      OrderSubmissionOperation nonce deadline owner side amount price token orderType
  | CreateOrderCancellation owner orderId =>
      OrderCancellationOperation nonce deadline owner orderId
  end.

(** A field value that is the string of a decimal numeral. *)
Definition is_decimal_value (v : JsValue) : bool :=
  match v with
  | JsString s => match parse_decimal s with Some _ => true | None => false end
  | _ => false
  end.

(** A schema field agrees with the message: a [uint256] field holds a
    decimal numeral, every other field a string. *)
Definition field_agrees (fields_ : Fields) (f : TypeField) : bool :=
  if String.eqb (tf_type f) "uint256" then is_decimal_value (get_field (tf_name f) fields_)
  else is_string (get_field (tf_name f) fields_).

(** The signers up to the first one whose call throws, and that one. *)
Fixpoint split_at_throw (msg : SignableMessage) (wallets : Wallets.WalletMap)
    : Wallets.WalletMap * option (string * Wallets.EngineDexWalletProvider) :=
  match wallets with
  | [] => ([], None)
  | kv :: rest =>
      match snd (Wallets.attempt msg (fst kv) (snd kv)) with
      | Throw _ => ([], Some kv)
      | Ok _ => let '(before, thrower) := split_at_throw msg rest in (kv :: before, thrower)
      end
  end.

(** [Map.prototype.get] *)
Fixpoint map_get (k : string) (m : Wallets.WalletMap) : option Wallets.EngineDexWalletProvider :=
  match m with
  | [] => None
  | (k', v) :: rest => if String.eqb k' k then Some v else map_get k rest
  end.

(** The bytes of a number, most significant first: what the loop of
    [generateSecureNonce] reads them from. *)
Fixpoint bigint_to_bytes (n : nat) (z : Z) : list Z :=
  match n with
  | O => []
  | S n' => (bigint_to_bytes n' (z / 256) ++ [z mod 256])%list
  end.

(** A value of a [Uint8Array] cell. *)
Definition is_byte (b : Z) : Prop := 0 <= b < 256.

(** ** More example data *)

Module MoreExamples.

Definition connected_provider (label addr : string) : WalletProviders.WalletProvider :=
  {| WalletProviders.getProviderName := label;
     WalletProviders.getConnection :=
       Ok (Some {| WalletProviders.isConnected := true;
                   WalletProviders.connection_chainId := 1 |});
     WalletProviders.connect := Throw (ErrorObj "already connected");
     WalletProviders.signTypedData := fun _ => Ok addr |}.

Definition refusing_provider (label : string) : WalletProviders.WalletProvider :=
  {| WalletProviders.getProviderName := label;
     WalletProviders.getConnection := Ok None;
     WalletProviders.connect := Throw (ErrorObj "User rejected the request");
     WalletProviders.signTypedData := fun _ => Ok "" |}.

Definition strategy_2 : MultiSignStrategy :=
  {| config := {| cfg_threshold := 2; cfg_signers := []; cfg_aggregationMethod := None |};
     aggregationMethod := ecdsa |}.

Definition providers_3 : list WalletProviders.WalletProvider :=
  [connected_provider "A" Examples.alice; refusing_provider "B";
   connected_provider "C" Examples.carol].

(** An empty store at a fixed instant, with the tracker of
    [new NonceManager()] and the domain configuration of the tests. *)
Definition test_world : World :=
  {| domainConfigs := {[ 0%nat := Examples.domain0 ]};
     nonceManager := {| nonceState := {| current := 0; used := ∅; lastUpdated := 1000 |};
                        maxAge := 24 * 60 * 60 * 1000 |};
     clock := fun _ => 1000;
     ticks := 0 |}.

Definition valid_address : string := "0x1234567890abcdefABCDEF1234567890abcdef12".

Definition msg_valid_domain : MessageInput :=
  {| in_domain := {| in_name := "EngineDex"; in_version := "1.0"; in_chainId := NumInt 1;
                     in_verifyingContract := valid_address |};
     in_primaryType := "Deposit" |}.

(** The same message with the chain identifier 1.5. *)
Definition msg_fractional_chain : MessageInput :=
  {| in_domain := {| in_name := "EngineDex"; in_version := "1.0"; in_chainId := NumFrac 1;
                     in_verifyingContract := valid_address |};
     in_primaryType := "Deposit" |}.

Definition thirty_two_bytes : list Z :=
  [1; 2; 3; 4; 5; 6; 7; 8; 9; 10; 11; 12; 13; 14; 15; 16;
   17; 18; 19; 20; 21; 22; 23; 24; 25; 26; 27; 28; 29; 30; 31; 255].

(** A message whose nonce is not a numeral. *)
Definition msg_bad_nonce : SignableMessage :=
  {| domain := Examples.domain0; types := []; primaryType := "Deposit";
     message := [("operation", JsString "Deposit"); ("nonce", JsString "seven")] |}.

(** A message whose nonce is the number 0 and that has no deadline. *)
Definition msg_zero_nonce : SignableMessage :=
  {| domain := Examples.domain0; types := []; primaryType := "Deposit";
     message := [("operation", JsString "Deposit"); ("nonce", JsNumber 0)] |}.

End MoreExamples.

(** * Properties *)

(** ** Signature verification *)

Section VerificationProperties.

Variable verifyTypedData :
  EIP712Domain -> EIP712Types -> Fields -> string -> Outcome string.
Variable verifyTypedData_undefined :
  EIP712Domain -> EIP712Types -> Fields -> Outcome string.

(** One step of the loop counts exactly the valid pairs. *)
Lemma verify_pair_valid (a : SignatureAggregate) (i : nat) (s c : string) :
  signatures a !! i = Some s -> signers a !! i = Some c ->
  verify_pair verifyTypedData a i = Ok true <->
  pair_valid verifyTypedData (sa_message a) (s, c) = true.
Proof.
  intros Hs Hc. unfold verify_pair, pair_valid, recoverSigner. rewrite Hs, Hc. simpl.
  destruct (verifyTypedData _ _ _ s) as [r|e]; simpl.
  - destruct (String.eqb _ _); split; congruence.
  - split; congruence.
Qed.

Lemma verify_pair_no_signer (a : SignatureAggregate) (i : nat) :
  signers a !! i = None -> verify_pair verifyTypedData a i <> Ok true.
Proof.
  intros Hc. unfold verify_pair, recoverSigner. rewrite Hc.
  destruct (signatures a !! i) as [s|]; [|congruence]. simpl.
  destruct (verifyTypedData _ _ _ s); simpl; congruence.
Qed.

Lemma verify_loop_count (a : SignatureAggregate) (todo i validCount_ : nat) :
  (i + todo <= length (signatures a))%nat ->
  verify_loop verifyTypedData a i todo validCount_ =
  (validCount_ +
     length (List.filter (pair_valid verifyTypedData (sa_message a))
               (zip (take todo (drop i (signatures a))) (drop i (signers a)))))%nat.
Proof.
  revert i validCount_. induction todo as [|todo IH]; intros i n Hle.
  - simpl. lia.
  - destruct (lookup_lt_is_Some_2 (signatures a) i) as [s Hs]; [lia|].
    rewrite (drop_S _ _ _ Hs). simpl take.
    destruct (signers a !! i) as [c|] eqn:Hc.
    + rewrite (drop_S _ _ _ Hc). simpl zip_with. simpl List.filter.
      pose proof (verify_pair_valid a i s c Hs Hc) as Hv.
      simpl verify_loop.
      destruct (pair_valid verifyTypedData (sa_message a) (s, c)) eqn:Hp.
      * rewrite (proj2 Hv eq_refl). rewrite IH by lia. simpl. lia.
      * destruct (verify_pair verifyTypedData a i) as [[|]|e] eqn:Hvp;
          [destruct Hv as [Hv _]; specialize (Hv eq_refl); congruence | |];
          rewrite IH by lia; reflexivity.
    + pose proof (verify_pair_no_signer a i Hc) as Hv.
      rewrite (drop_ge (signers a) i) by (apply lookup_ge_None; exact Hc).
      assert (Hnil : forall l : list string, zip l (@nil string) = []) by (intros [|? ?]; reflexivity).
      rewrite Hnil. simpl List.filter. simpl verify_loop.
      assert (Hd : drop (S i) (signers a) = []).
      { apply drop_ge. apply lookup_ge_None in Hc. lia. }
      destruct (verify_pair verifyTypedData a i) as [[|]|e]; [congruence | |];
        rewrite IH by lia; rewrite Hd, Hnil; reflexivity.
Qed.

Lemma verifyIndividualSignatures_validCount (this : MultiSignStrategy)
    (a : SignatureAggregate) :
  verifyIndividualSignatures verifyTypedData this a = Ok (validCount verifyTypedData a).
Proof.
  unfold verifyIndividualSignatures, validCount.
  rewrite verify_loop_count by (simpl; lia).
  rewrite drop_0, take_ge by lia. reflexivity.
Qed.

(** The utility counts as the strategy does: the prefix that
    [recoverSigner] adds to a thrown error is dropped by both loops. *)
Lemma util_verify_loop_eq (a : SignatureAggregate) (todo i n : nat) :
  util_verify_loop verifyTypedData a i todo n = verify_loop verifyTypedData a i todo n.
Proof.
  revert i n. induction todo as [|todo IH]; intros i n; [reflexivity|].
  simpl. unfold util_verify_pair, verify_pair, recoverSigner.
  destruct (signatures a !! i) as [s|]; [|apply IH]. simpl.
  destruct (verifyTypedData _ _ _ s) as [r|e]; simpl; [|apply IH].
  destruct (toLowerCase_opt (signers a !! i)) as [x|e]; simpl; [|apply IH].
  destruct (String.eqb (toLowerCase r) x); apply IH.
Qed.

(** What [MultiSignStrategy.verifySignature] returns, on every input. *)
Lemma MultiSign_verifySignature_eq (this : MultiSignStrategy) (sig : SignatureResult) :
  MultiSign_verifySignature verifyTypedData this sig =
  Ok match sig with
     | Single _ => false
     | Aggregate a =>
         if (length (signatures a) =? 0)%nat then false
         else if Z.of_nat (length (signatures a)) <? threshold a then false
         else threshold a <=? Z.of_nat (validCount verifyTypedData a)
     end.
Proof.
  destruct sig as [s|a]; [reflexivity|]. unfold MultiSign_verifySignature.
  destruct (length (signatures a) =? 0)%nat; [reflexivity|].
  destruct (Z.of_nat (length (signatures a)) <? threshold a); [reflexivity|].
  rewrite verifyIndividualSignatures_validCount. reflexivity.
Qed.

End VerificationProperties.

Section VerificationClaims.

Variable verifyTypedData :
  EIP712Domain -> EIP712Types -> Fields -> string -> Outcome string.
Variable verifyTypedData_undefined :
  EIP712Domain -> EIP712Types -> Fields -> Outcome string.

(** C1. Multi-sign threshold rule: for every signature aggregate (its
    threshold a positive integer), [verifySignature] returns false when
    there are fewer signatures than the threshold; otherwise it returns
    true exactly when the number of index-aligned (signature, claimed
    signer) pairs whose recovered address equals the claimed address up
    to letter case reaches the threshold. A pair whose recovery fails is
    not counted, and the verification still returns. *)
Theorem C1_multisign_threshold_rule (this : MultiSignStrategy) (a : SignatureAggregate) :
  0 < threshold a ->
  MultiSign_verifySignature verifyTypedData this (Aggregate a) =
  Ok (if Z.of_nat (length (signatures a)) <? threshold a then false
      else threshold a <=? Z.of_nat (validCount verifyTypedData a)).
Proof.
  intros Hpos. rewrite MultiSign_verifySignature_eq.
  destruct (length (signatures a)) as [|n] eqn:Hlen; [|reflexivity].
  simpl Nat.eqb. cbv iota.
  replace (Z.of_nat 0 <? threshold a) with true; [reflexivity|].
  symmetry. apply Z.ltb_lt. simpl. exact Hpos.
Qed.

(** C2, as amended. A pair is counted exactly when recovery succeeds and
    the recovered address equals the claimed address up to letter case;
    the configured signer list of the strategy is not consulted, so two
    strategies with different configurations return the same count and
    the same verdict. *)
Theorem C2_count_ignores_configured_signers
    (this this' : MultiSignStrategy) (a : SignatureAggregate) :
  verifyIndividualSignatures verifyTypedData this a = Ok (validCount verifyTypedData a)
  /\ verifyIndividualSignatures verifyTypedData this' a
     = verifyIndividualSignatures verifyTypedData this a
  /\ MultiSign_verifySignature verifyTypedData this' (Aggregate a)
     = MultiSign_verifySignature verifyTypedData this (Aggregate a)
  /\ verifyMultiSignature verifyTypedData a
     = Ok (threshold a <=? Z.of_nat (validCount verifyTypedData a)).
Proof.
  split; [apply verifyIndividualSignatures_validCount|].
  split; [reflexivity|]. split; [reflexivity|].
  unfold verifyMultiSignature. simpl. rewrite util_verify_loop_eq.
  pose proof (verifyIndividualSignatures_validCount verifyTypedData this a) as H.
  unfold verifyIndividualSignatures in H. injection H as H. rewrite H. reflexivity.
Qed.


(** C10. Multi-sign [verifySignature] is total: on every input it
    returns a boolean and never throws; it returns false when the
    [signatures] list is missing (a single signature) or empty, whatever
    the threshold, zero and negative thresholds included. *)
Theorem C10_multisign_verify_total (this : MultiSignStrategy) :
  (forall sig : SignatureResult,
     exists b : bool, MultiSign_verifySignature verifyTypedData this sig = Ok b)
  /\ (forall s : SingleSignature,
        MultiSign_verifySignature verifyTypedData this (Single s) = Ok false)
  /\ (forall (claimed : list string) (t : Z) (m : SignableMessage) (agg : option string),
        MultiSign_verifySignature verifyTypedData this
          (Aggregate {| signatures := []; signers := claimed; threshold := t;
                        sa_message := m; aggregateSignature := agg |}) = Ok false).
Proof.
  split; [|split].
  - intros sig. rewrite MultiSign_verifySignature_eq. eexists; reflexivity.
  - reflexivity.
  - reflexivity.
Qed.

(** The utility [verifySingleSignature], unlike the strategy, rethrows a
    recovery failure. *)
Lemma verifySingleSignature_rethrows (sig : SingleSignature) (e : Thrown) :
  verifyTypedData (domain (ss_message sig)) (types (ss_message sig))
    (message (ss_message sig)) (signature sig) = Throw e ->
  verifySingleSignature verifyTypedData sig
  = Throw (ErrorObj ("Signature verification failed: " ++ error_message e)).
Proof. intros H. unfold verifySingleSignature. rewrite H. reflexivity. Qed.

End VerificationClaims.

(** Two valid signatures of three meet a threshold of 2; with one byte of
    the first signature changed, only one pair is left and the aggregate
    is refused. *)
Example verify_2_of_3 :
  validCount Examples.recover Examples.aggregate_2_of_3 = 2%nat
  /\ MultiSign_verifySignature Examples.recover Examples.strategy_alice_bob
       (Aggregate {| signatures := ["0xAAab"; ""; Examples.carol];
                     signers := ["0xaaaa"; "0xbbbb"; "0xcccc"];
                     threshold := 2; sa_message := Examples.msg0;
                     aggregateSignature := None |}) = Ok false.
Proof. split; reflexivity. Qed.

(** C1 at an aggregate of three signatures, two of them valid, threshold 2. *)
Lemma C1_witness :
  MultiSign_verifySignature Examples.recover Examples.strategy_alice_bob
    (Aggregate Examples.aggregate_2_of_3) = Ok true.
Proof.
  exact (C1_multisign_threshold_rule Examples.recover Examples.strategy_alice_bob
           Examples.aggregate_2_of_3 eq_refl).
Defined.

(** C2 fails as stated: the strategy is configured with the signers
    [0xaaaa] and [0xbbbb]; an aggregate of one signature by [0xcccc], who
    is not in that list, is counted and accepted. *)
Lemma C2_counterexample :
  ~ In "0xcccc" (cfg_signers (config Examples.strategy_alice_bob))
  /\ signers Examples.aggregate_outsider = ["0xcccc"]
  /\ verifyIndividualSignatures Examples.recover Examples.strategy_alice_bob
       Examples.aggregate_outsider = Ok 1%nat
  /\ MultiSign_verifySignature Examples.recover Examples.strategy_alice_bob
       (Aggregate Examples.aggregate_outsider) = Ok true
  /\ verifyMultiSignature Examples.recover Examples.aggregate_outsider = Ok true.
Proof.
  split; [|repeat split; reflexivity].
  simpl. intros [H|[H|[]]]; discriminate H.
Qed.

(** ** Signature collection *)

Section CollectionProperties.

Import Wallets.

Variable msg : SignableMessage.

Lemma hook_collect_loop_eq (wallets : WalletMap) (sigs : list Collected)
    (errs : list (string * string)) (calls : list WalletCall) :
  useMultiSignWallet.collect_loop msg wallets sigs errs calls =
  ((sigs ++ successes msg wallets)%list, (errs ++ failures msg wallets)%list,
   (calls ++ calls_of msg wallets)%list).
Proof.
  revert sigs errs calls. induction wallets as [|[walletId wallet] rest IH];
    intros sigs errs calls.
  - simpl. unfold successes, failures, calls_of. simpl. by rewrite !app_nil_r.
  - simpl useMultiSignWallet.collect_loop.
    unfold successes, failures, calls_of in *. simpl omap. simpl List.map.
    unfold signer_success at 1, signer_failure at 1. simpl fst. simpl snd.
    destruct (attempt msg walletId wallet) as [cs [[entry|]|e]]; simpl;
      rewrite IH; by rewrite <- !app_assoc.
Qed.

Lemma manager_collect_loop_eq (wallets : WalletMap) (sigs : list Collected)
    (calls : list WalletCall) :
  MultiSignWalletManager.collect_loop msg wallets sigs calls =
  ((sigs ++ successes msg wallets)%list, (calls ++ calls_of msg wallets)%list).
Proof.
  revert sigs calls. induction wallets as [|[walletId wallet] rest IH]; intros sigs calls.
  - simpl. unfold successes, calls_of. simpl. by rewrite !app_nil_r.
  - simpl MultiSignWalletManager.collect_loop.
    unfold successes, calls_of in *. simpl omap. simpl List.map.
    unfold signer_success at 1. simpl fst. simpl snd.
    destruct (attempt msg walletId wallet) as [cs [[entry|]|e]]; simpl;
      rewrite IH; by rewrite <- !app_assoc.
Qed.

(** Every signer either succeeds or fails. *)
Lemma successes_failures_length (wallets : WalletMap) :
  (length (successes msg wallets) + length (failures msg wallets) = length wallets)%nat.
Proof.
  unfold successes, failures. induction wallets as [|kv rest IH]; [reflexivity|].
  simpl. unfold signer_success at 1, signer_failure at 1.
  unfold omap in IH.
  destruct (snd (attempt msg (fst kv) (snd kv))) as [[entry|]|e]; simpl; lia.
Qed.

(** [MultiSignWalletManager.collectSignatures] never throws. *)
Lemma manager_collectSignatures_eq (this : MultiSignWalletManager.t) :
  MultiSignWalletManager.collectSignatures this msg =
  (calls_of msg (MultiSignWalletManager.connectedWallets this),
   Ok (successes msg (MultiSignWalletManager.connectedWallets this))).
Proof.
  unfold MultiSignWalletManager.collectSignatures.
  rewrite manager_collect_loop_eq. reflexivity.
Qed.

(** [WagmiMultiSignStrategy.collectSignatures] does check the threshold
    first, and then calls no wallet. *)
Lemma wagmi_collectSignatures_threshold (this : WagmiMultiSignStrategy.t) :
  WagmiMultiSignStrategy.isThresholdMet this = false ->
  WagmiMultiSignStrategy.collectSignatures this msg =
  ([], Throw (ErrorObj ("Multi-sign threshold not met. Required: "
                          ++ Z_toString (WagmiMultiSignStrategy.threshold this)
                          ++ ", Connected: "
                          ++ Z_toString (map_size (WagmiMultiSignStrategy.connectedWallets this))))).
Proof.
  intros H. unfold WagmiMultiSignStrategy.collectSignatures. rewrite H. reflexivity.
Qed.

(** What the hook's [collectSignatures] returns: it throws exactly when
    the registry is not empty and no signer produced a signature, the
    error listing the message of every per-signer failure in order; in
    every other case it returns the successful entries in
    signer-iteration order. Every signer is asked in both cases. *)
Lemma hook_collectSignatures_eq (this : useMultiSignWallet.t) :
  useMultiSignWallet.collectSignatures this msg =
  (calls_of msg (useMultiSignWallet.connectedWallets this),
   match useMultiSignWallet.connectedWallets this,
         successes msg (useMultiSignWallet.connectedWallets this) with
   | _ :: _, [] =>
       Throw (ErrorObj ("Failed to collect signatures from all wallets: "
                          ++ join ", " (List.map snd
                               (failures msg (useMultiSignWallet.connectedWallets this)))))
   | _, collected => Ok collected
   end).
Proof.
  unfold useMultiSignWallet.collectSignatures.
  rewrite hook_collect_loop_eq. simpl app.
  pose proof (successes_failures_length (useMultiSignWallet.connectedWallets this)) as Hlen.
  revert Hlen.
  destruct (useMultiSignWallet.connectedWallets this) as [|kv rest]; [reflexivity|].
  destruct (successes msg (kv :: rest)) as [|entry more].
  - destruct (failures msg (kv :: rest)) as [|f fs]; simpl; [lia|reflexivity].
  - intros _. simpl length. rewrite Bool.andb_false_r. reflexivity.
Qed.

(** On every registry that has a signer, the hook's collector raises if
    and only if all signers fail, and otherwise returns the successes. *)
Lemma hook_raises_iff_all_fail (this : useMultiSignWallet.t) :
  useMultiSignWallet.connectedWallets this <> [] ->
  ((exists e, snd (useMultiSignWallet.collectSignatures this msg) = Throw e)
   <-> successes msg (useMultiSignWallet.connectedWallets this) = [])
  /\ (successes msg (useMultiSignWallet.connectedWallets this) <> [] ->
      snd (useMultiSignWallet.collectSignatures this msg)
      = Ok (successes msg (useMultiSignWallet.connectedWallets this))).
Proof.
  intros Hne. rewrite hook_collectSignatures_eq. simpl snd.
  destruct (useMultiSignWallet.connectedWallets this) as [|kv rest]; [contradiction|].
  destruct (successes msg (kv :: rest)) as [|entry more]; split.
  - split; [reflexivity|]. intros _. eexists; reflexivity.
  - intros H. contradiction.
  - split; [intros [e He]; discriminate He|discriminate].
  - reflexivity.
Qed.

End CollectionProperties.

(** One signer of three rejects: the two others are returned, in order. *)
Example hook_collect_one_rejects :
  snd (Wallets.useMultiSignWallet.collectSignatures Examples.hook_3 Examples.msg0)
  = Ok [{| Wallets.walletId := "w1"; Wallets.address := Examples.alice;
           Wallets.collected_signature := Examples.alice |};
        {| Wallets.walletId := "w3"; Wallets.address := Examples.carol;
           Wallets.collected_signature := Examples.carol |}].
Proof. reflexivity. Qed.

(** Every signer fails: the error lists each failure. *)
Example hook_collect_all_fail :
  Wallets.useMultiSignWallet.collectSignatures
    {| Wallets.useMultiSignWallet.connectedWallets :=
         [("w2", Examples.rejecting_wallet "w2" Examples.bob);
          ("w4", Examples.locked_wallet "w4")];
       Wallets.useMultiSignWallet.threshold := 2 |} Examples.msg0
  = ([Wallets.CallGetAddress "w2"; Wallets.CallSignTypedData "w2";
      Wallets.CallGetAddress "w4"],
     Throw (ErrorObj ("Failed to collect signatures from all wallets: "
                        ++ "User rejected the request, No address available"))).
Proof. reflexivity. Qed.

(** C3 fails on the code: a manager, and a hook, that require two signers
    and have one connected do not meet the threshold, yet their
    [collectSignatures] asks the wallet to sign and returns its signature.
    [WagmiMultiSignStrategy] in the same state throws before any call. *)
Lemma C3_threshold_not_checked :
  Wallets.MultiSignWalletManager.isThresholdMet Examples.manager_1_of_2 = false
  /\ Wallets.MultiSignWalletManager.collectSignatures Examples.manager_1_of_2 Examples.msg0
     = ([Wallets.CallGetAddress "w1"; Wallets.CallSignTypedData "w1"],
        Ok [{| Wallets.walletId := "w1"; Wallets.address := Examples.alice;
               Wallets.collected_signature := Examples.alice |}])
  /\ Wallets.useMultiSignWallet.isThresholdMet Examples.hook_1_of_2 = false
  /\ Wallets.useMultiSignWallet.collectSignatures Examples.hook_1_of_2 Examples.msg0
     = ([Wallets.CallGetAddress "w1"; Wallets.CallSignTypedData "w1"],
        Ok [{| Wallets.walletId := "w1"; Wallets.address := Examples.alice;
               Wallets.collected_signature := Examples.alice |}])
  /\ Wallets.WagmiMultiSignStrategy.collectSignatures Examples.wagmi_1_of_2 Examples.msg0
     = ([], Throw (ErrorObj "Multi-sign threshold not met. Required: 2, Connected: 1")).
Proof. repeat split; reflexivity. Qed.

(** C4 fails on the code of [MultiSignWalletManager]: its only signer
    rejects the request, so that all signers failed, and
    [collectSignatures] returns the empty list instead of throwing. The
    hook's collector on the same registry throws, listing the failure. *)
Lemma C4_manager_returns_when_all_fail :
  successes Examples.msg0 [("w2", Examples.rejecting_wallet "w2" Examples.bob)] = []
  /\ Wallets.MultiSignWalletManager.collectSignatures
       {| Wallets.MultiSignWalletManager.connectedWallets :=
            [("w2", Examples.rejecting_wallet "w2" Examples.bob)];
          Wallets.MultiSignWalletManager.threshold := 1 |} Examples.msg0
     = ([Wallets.CallGetAddress "w2"; Wallets.CallSignTypedData "w2"], Ok [])
  /\ Wallets.useMultiSignWallet.collectSignatures
       {| Wallets.useMultiSignWallet.connectedWallets :=
            [("w2", Examples.rejecting_wallet "w2" Examples.bob)];
          Wallets.useMultiSignWallet.threshold := 1 |} Examples.msg0
     = ([Wallets.CallGetAddress "w2"; Wallets.CallSignTypedData "w2"],
        Throw (ErrorObj ("Failed to collect signatures from all wallets: "
                           ++ "User rejected the request")))
  /\ ~ raises_iff_all_fail
        (fun wallets msg =>
           snd (Wallets.MultiSignWalletManager.collectSignatures
                  {| Wallets.MultiSignWalletManager.connectedWallets := wallets;
                     Wallets.MultiSignWalletManager.threshold := 1 |} msg)).
Proof.
  split; [reflexivity|]. split; [reflexivity|]. split; [reflexivity|].
  intros H.
  destruct (H [("w2", Examples.rejecting_wallet "w2" Examples.bob)] Examples.msg0)
    as [[_ Hthrow] _].
  destruct (Hthrow eq_refl) as [e He]. discriminate He.
Qed.

(** ** Message construction *)

(** [toString] writes the decimal numeral of an integer: reading the
    numeral gives the integer back. *)
Lemma Z_toString_decimal (z : Z) : parse_decimal (Z_toString z) = Some z.
Proof.
  unfold parse_decimal, Z_toString.
  rewrite NilZero.isi.
  - simpl. f_equal. apply DecimalZ.of_to.
  - destruct z; simpl; try discriminate.
    intros H. injection H as H. exact (DecimalPos.Unsigned.to_uint_nonnil _ H).
  - destruct z; simpl; try discriminate.
    intros H. injection H as H. exact (DecimalPos.Unsigned.to_uint_nonnil _ H).
Qed.

Lemma Z_toString_inj (a b : Z) : Z_toString a = Z_toString b -> a = b.
Proof.
  intros H. pose proof (Z_toString_decimal a) as Ha. rewrite H, Z_toString_decimal in Ha.
  congruence.
Qed.

Lemma getTypesForOperation_signable (op : SignableOperation) :
  exists t, MessageFactory.getTypesForOperation (operation op) = Ok t.
Proof. destruct op; eexists; reflexivity. Qed.

Lemma serializeOperation_fields (op : SignableOperation) :
  get_field "nonce" (MessageFactory.serializeOperation op) = JsString (Z_toString (op_nonce op))
  /\ get_field "deadline" (MessageFactory.serializeOperation op)
     = JsString (Z_toString (op_deadline op))
  /\ get_field "amount" (MessageFactory.serializeOperation op) = decimal_field (op_amount op)
  /\ get_field "price" (MessageFactory.serializeOperation op) = decimal_field (op_price op)
  /\ forallb (fun kv => is_string (snd kv)) (MessageFactory.serializeOperation op) = true.
Proof. destruct op; repeat split; reflexivity. Qed.

(** C9. For each of the four operations the message that the factory
    builds holds every integer-valued field (nonce, deadline, and amount
    and price where the operation has them) as the string of its decimal
    numeral; every value of the field map is a string, none a number. *)
Theorem C9_integer_fields_are_decimal_strings
    (this : MessageFactory.t) (op : SignableOperation) (w : World) (d : EIP712Domain) :
  domainConfigs w !! MessageFactory.domainConfig this = Some d ->
  exists msg : SignableMessage,
    MessageFactory.createMessage this op w = (Ok msg, w)
    /\ get_field "nonce" (message msg) = JsString (Z_toString (op_nonce op))
    /\ get_field "deadline" (message msg) = JsString (Z_toString (op_deadline op))
    /\ get_field "amount" (message msg) = decimal_field (op_amount op)
    /\ get_field "price" (message msg) = decimal_field (op_price op)
    /\ forallb (fun kv => is_string (snd kv)) (message msg) = true
    /\ parse_decimal (Z_toString (op_nonce op)) = Some (op_nonce op)
    /\ parse_decimal (Z_toString (op_deadline op)) = Some (op_deadline op)
    /\ option_map parse_decimal (option_map Z_toString (op_amount op))
       = option_map Some (op_amount op)
    /\ option_map parse_decimal (option_map Z_toString (op_price op))
       = option_map Some (op_price op).
Proof.
  intros Hd. destruct (getTypesForOperation_signable op) as [t Ht].
  exists {| domain := d; types := t; primaryType := operation op;
            message := MessageFactory.serializeOperation op |}.
  split.
  - unfold MessageFactory.createMessage, DomainConfig.getDomain, DomainConfig.read, lift,
      mbind, M_bind, mret, M_ret.
    rewrite Ht, Hd. destruct d; reflexivity.
  - simpl message. pose proof (serializeOperation_fields op) as (H1 & H2 & H3 & H4 & H5).
    repeat split; try assumption; try apply Z_toString_decimal.
    + destruct (op_amount op); simpl; [by rewrite Z_toString_decimal|reflexivity].
    + destruct (op_price op); simpl; [by rewrite Z_toString_decimal|reflexivity].
Qed.

(** C9 at a deposit of 10^18 units, built by the factory of the example store. *)
Lemma C9_witness :
  exists msg : SignableMessage,
    MessageFactory.createMessage Examples.factory0 Examples.deposit0 Examples.fresh_world
      = (Ok msg, Examples.fresh_world)
    /\ get_field "nonce" (message msg) = JsString "7"
    /\ get_field "deadline" (message msg) = JsString "9999"
    /\ get_field "amount" (message msg) = JsString "1000000000000000000".
Proof.
  destruct (C9_integer_fields_are_decimal_strings Examples.factory0 Examples.deposit0
              Examples.fresh_world Examples.domain0 eq_refl)
    as (msg & H0 & H1 & H2 & H3 & _).
  exists msg. repeat split; assumption.
Defined.

(** ** What a method leaves unchanged *)

Section Frame.

(** A relation between the store before and after a call. *)
Variable R : World -> World -> Prop.
Hypothesis R_refl : forall w, R w w.
Hypothesis R_trans : forall a b c, R a b -> R b c -> R a c.
Hypothesis R_tick : forall w, R w (tick w).
Hypothesis R_cleanup : forall w, R w (snd (NonceManager.cleanup w)).

Lemma preserves_ret {A} (a : A) : preserves R (mret a).
Proof. intros w. apply R_refl. Qed.

Lemma preserves_lift {A} (o : Outcome A) : preserves R (lift o).
Proof. intros w. apply R_refl. Qed.

Lemma preserves_bind {A B} (m : M A) (k : A -> M B) :
  preserves R m -> (forall a, preserves R (k a)) -> preserves R (m ≫= k).
Proof.
  intros Hm Hk w. unfold mbind, M_bind. specialize (Hm w).
  destruct (m w) as [[a|e] w']; simpl in *; [|exact Hm].
  eapply R_trans; [exact Hm|apply Hk].
Qed.

Lemma preserves_if {A} (b : bool) (m1 m2 : M A) :
  preserves R m1 -> preserves R m2 -> preserves R (if b then m1 else m2).
Proof. destruct b; auto. Qed.

Lemma preserves_Date_now : preserves R Date_now.
Proof. intros w. apply R_tick. Qed.

Lemma preserves_get_nonceState : preserves R get_nonceState.
Proof. intros w. apply R_refl. Qed.

Lemma preserves_DomainConfig_read (this : nat) : preserves R (DomainConfig.read this).
Proof. intros w. unfold DomainConfig.read. destruct (_ !! _); apply R_refl. Qed.

Lemma preserves_DomainConfig_validate (this : nat) : preserves R (DomainConfig.validate this).
Proof.
  apply preserves_bind; [apply preserves_DomainConfig_read|]. intros d. apply preserves_ret.
Qed.

Lemma preserves_isNonceUsed (nonce : Z) : preserves R (NonceManager.isNonceUsed nonce).
Proof.
  apply preserves_bind; [exact R_cleanup|]. intros _.
  apply preserves_bind; [apply preserves_get_nonceState|]. intros s. apply preserves_ret.
Qed.

Lemma preserves_isNonceValid (nonce : Z) : preserves R (NonceManager.isNonceValid nonce).
Proof.
  apply preserves_bind; [apply preserves_get_nonceState|]. intros s. apply preserves_ret.
Qed.

Lemma preserves_validateNonce (nonce : Z) : preserves R (NonceManager.validateNonce nonce).
Proof.
  apply preserves_bind; [exact R_cleanup|]. intros _.
  apply preserves_bind; [apply preserves_isNonceUsed|]. intros b.
  apply preserves_if; [apply preserves_isNonceValid|apply preserves_ret].
Qed.

Lemma preserves_validateMessage (BigInt_of_string : string -> Outcome Z)
    (this : MessageFactory.t) (msg : SignableMessage) :
  preserves R (MessageFactory.validateMessage BigInt_of_string this msg).
Proof.
  unfold MessageFactory.validateMessage.
  apply preserves_bind; [apply preserves_DomainConfig_validate|]. intros domainOk.
  apply preserves_bind.
  - apply preserves_if; [|apply preserves_ret].
    apply preserves_bind; [apply preserves_lift|]. intros nonce.
    apply preserves_bind; [apply preserves_validateNonce|]. intros ok. apply preserves_ret.
  - intros errors3. apply preserves_bind; [|intros; apply preserves_ret].
    apply preserves_if; [|apply preserves_ret].
    apply preserves_bind; [apply preserves_lift|]. intros deadline.
    apply preserves_bind; [apply preserves_Date_now|]. intros now. apply preserves_ret.
Qed.

End Frame.

(** *** The two frames of the nonce tracker *)

Lemma fresh_frame_within (w w' : World) :
  within_max_age w -> fresh_frame w w' -> within_max_age w'.
Proof.
  intros Hw Hf. destruct (Hf Hw) as (Hm & _ & Hc & Ht).
  intros k Hk. rewrite Hm, Hc. apply Hw. lia.
Qed.

Lemma cleanup_within (w : World) :
  within_max_age w -> NonceManager.cleanup w = (Ok tt, tick w).
Proof.
  intros Hw. unfold NonceManager.cleanup, mbind, M_bind, Date_now, get_nonceState, get_maxAge.
  simpl. specialize (Hw (ticks w) (le_n _)).
  destruct (Z.ltb_spec (maxAge (nonceManager w))
              (clock w (ticks w) - lastUpdated (nonceState (nonceManager w)))); [lia|reflexivity].
Qed.

Lemma counter_frame_cleanup (w : World) : counter_frame w (snd (NonceManager.cleanup w)).
Proof.
  unfold NonceManager.cleanup, mbind, M_bind, Date_now, get_nonceState, get_maxAge. simpl.
  destruct (_ <? _); repeat split.
Qed.

Lemma fresh_frame_cleanup (w : World) : fresh_frame w (snd (NonceManager.cleanup w)).
Proof.
  intros Hw. rewrite cleanup_within by exact Hw. simpl. repeat split. lia.
Qed.

Lemma counter_frame_trans (a b c : World) :
  counter_frame a b -> counter_frame b c -> counter_frame a c.
Proof.
  intros (H1 & H2 & H3 & H4) (G1 & G2 & G3 & G4). repeat split; congruence.
Qed.

Lemma fresh_frame_trans (a b c : World) :
  fresh_frame a b -> fresh_frame b c -> fresh_frame a c.
Proof.
  intros Hab Hbc Ha. pose proof (fresh_frame_within a b Ha Hab) as Hb.
  destruct (Hab Ha) as (H1 & H2 & H3 & H4). destruct (Hbc Hb) as (G1 & G2 & G3 & G4).
  repeat split; try congruence. lia.
Qed.

Lemma validateMessage_counter_frame (BigInt_of_string : string -> Outcome Z)
    (this : MessageFactory.t) (msg : SignableMessage) (w : World) :
  counter_frame w (snd (MessageFactory.validateMessage BigInt_of_string this msg w)).
Proof.
  apply (preserves_validateMessage counter_frame).
  - intros w0. repeat split.
  - exact counter_frame_trans.
  - intros w0. repeat split.
  - exact counter_frame_cleanup.
Qed.

Lemma validateMessage_fresh_frame (BigInt_of_string : string -> Outcome Z)
    (this : MessageFactory.t) (msg : SignableMessage) (w : World) :
  fresh_frame w (snd (MessageFactory.validateMessage BigInt_of_string this msg w)).
Proof.
  apply (preserves_validateMessage fresh_frame).
  - intros w0 _. repeat split. lia.
  - exact fresh_frame_trans.
  - intros w0 _. repeat split. simpl. lia.
  - exact fresh_frame_cleanup.
Qed.

(** C6, as amended. [validateMessage] never changes the current counter
    of the nonce tracker. While the tracker is within its max-age window
    (no clock reading of the call is later than [lastUpdated + maxAge]) it
    leaves the whole tracker state unchanged: counter, used set and
    last-updated time. *)
Theorem C6_validateMessage_frame (BigInt_of_string : string -> Outcome Z)
    (this : MessageFactory.t) (msg : SignableMessage) (w : World) :
  current (nonceState (nonceManager
             (snd (MessageFactory.validateMessage BigInt_of_string this msg w))))
  = current (nonceState (nonceManager w))
  /\ (within_max_age w ->
      nonceManager (snd (MessageFactory.validateMessage BigInt_of_string this msg w))
      = nonceManager w).
Proof.
  split.
  - apply validateMessage_counter_frame.
  - intros Hw. apply (validateMessage_fresh_frame BigInt_of_string this msg w Hw).
Qed.

Lemma fresh_world_within : within_max_age Examples.fresh_world.
Proof. intros k _. simpl. lia. Qed.

(** C6 at a store last updated a tenth of a second ago. *)
Lemma C6_witness :
  nonceManager (snd (MessageFactory.validateMessage Examples.BigInt_of_string
                       Examples.factory0 Examples.msg_nonce_5 Examples.fresh_world))
  = nonceManager Examples.fresh_world.
Proof.
  exact (proj2 (C6_validateMessage_frame Examples.BigInt_of_string Examples.factory0
                  Examples.msg_nonce_5 Examples.fresh_world) fresh_world_within).
Defined.

(** C6 fails as stated: the tracker was last updated five seconds ago
    with a max age of one second; validating a message whose nonce is 5
    clears the used set and moves the last-updated time. *)
Lemma C6_counterexample :
  nonceState (nonceManager Examples.stale_world)
  = {| current := 6; used := {[ "5" ]}; lastUpdated := 0 |}
  /\ nonceState (nonceManager
       (snd (MessageFactory.validateMessage Examples.BigInt_of_string
               Examples.factory0 Examples.msg_nonce_5 Examples.stale_world)))
     = {| current := 6; used := ∅; lastUpdated := 5000 |}
  /\ nonceManager (snd (MessageFactory.validateMessage Examples.BigInt_of_string
                          Examples.factory0 Examples.msg_nonce_5 Examples.stale_world))
     <> nonceManager Examples.stale_world.
Proof.
  assert (H : nonceState (nonceManager
       (snd (MessageFactory.validateMessage Examples.BigInt_of_string
               Examples.factory0 Examples.msg_nonce_5 Examples.stale_world)))
     = {| current := 6; used := ∅; lastUpdated := 5000 |}) by reflexivity.
  split; [reflexivity|]. split; [exact H|].
  intros Heq. rewrite Heq in H. discriminate H.
Qed.

(** ** The nonce tracker *)

Lemma validateNonce_within (nonce : Z) (w : World) :
  within_max_age w ->
  NonceManager.validateNonce nonce w =
  (Ok (negb (marked_used nonce w)
       && (current (nonceState (nonceManager w)) - 1000 <=? nonce))%bool,
   tick (tick w)).
Proof.
  intros Hw.
  assert (Hw' : within_max_age (tick w)).
  { intros k Hk. apply Hw. simpl in Hk. lia. }
  unfold NonceManager.validateNonce, NonceManager.isNonceUsed, NonceManager.isNonceValid.
  unfold mbind at 1, M_bind at 1. rewrite cleanup_within by exact Hw.
  unfold mbind at 1, M_bind at 1. unfold mbind at 1, M_bind at 1.
  rewrite cleanup_within by exact Hw'.
  unfold marked_used, mbind, M_bind, mret, M_ret, get_nonceState. simpl.
  destruct (bool_decide _); reflexivity.
Qed.

Lemma validateNonce_post (nonce : Z) (w : World) :
  fst (NonceManager.validateNonce nonce w) =
  Ok (negb (marked_used nonce (snd (NonceManager.validateNonce nonce w)))
      && (current (nonceState (nonceManager w)) - 1000 <=? nonce))%bool.
Proof.
  unfold NonceManager.validateNonce, NonceManager.isNonceUsed, NonceManager.isNonceValid,
    NonceManager.cleanup, marked_used, mbind, M_bind, mret, M_ret, Date_now,
    get_nonceState, get_maxAge, put_nonceState.
  simpl.
  destruct (_ <? _); simpl; destruct (_ <? _); simpl;
    destruct (bool_decide _) eqn:Hb; simpl; rewrite ?Hb; reflexivity.
Qed.

Lemma markNonceUsed_marks (nonce : Z) (w : World) :
  marked_used nonce (snd (NonceManager.markNonceUsed nonce w)) = true.
Proof.
  unfold NonceManager.markNonceUsed, NonceManager.cleanup, marked_used, mbind, M_bind,
    Date_now, get_nonceState, get_maxAge, put_nonceState, mret, M_ret.
  simpl. destruct (_ <? _); simpl; apply bool_decide_eq_true; set_solver.
Qed.

Lemma markNonceUsed_within (nonce : Z) (w : World) :
  within_max_age w -> within_max_age (snd (NonceManager.markNonceUsed nonce w)).
Proof.
  intros Hw. unfold NonceManager.markNonceUsed.
  unfold mbind at 1, M_bind at 1. rewrite cleanup_within by exact Hw.
  unfold mbind, M_bind, get_nonceState, put_nonceState. simpl.
  intros k Hk. simpl in *. apply Hw. lia.
Qed.

(** "Immediately after": when the clock does not move and the max age is
    not negative, no reset falls due after [markNonceUsed]. *)
Lemma markNonceUsed_same_instant (nonce : Z) (w : World) :
  (forall k, clock w k = clock w (ticks w)) ->
  0 <= maxAge (nonceManager w) ->
  within_max_age (snd (NonceManager.markNonceUsed nonce w)).
Proof.
  intros Hclock Hage.
  unfold NonceManager.markNonceUsed, NonceManager.cleanup, mbind, M_bind,
    Date_now, get_nonceState, get_maxAge, put_nonceState, mret, M_ret.
  simpl.
  destruct (Z.ltb_spec (maxAge (nonceManager w))
              (clock w (ticks w) - lastUpdated (nonceState (nonceManager w))));
    simpl; intros k Hk; simpl; rewrite (Hclock k); lia.
Qed.

(** C8, as amended. For every nonce and every tracker state,
    [validateNonce] returns true exactly when the nonce is at least
    [current - 1000] and is not in the used set as the call leaves it,
    that is after the time-boxed reset that the call itself performs when
    the max age has passed; within the max-age window this is the used
    set that the call found, and the state is not changed. After
    [markNonceUsed] on a nonce, with no max-age reset falling due in
    between, [validateNonce] on that nonce returns false. *)
Theorem C8_nonce_validation (nonce : Z) (w : World) :
  fst (NonceManager.validateNonce nonce w) =
    Ok (negb (marked_used nonce (snd (NonceManager.validateNonce nonce w)))
        && (current (nonceState (nonceManager w)) - 1000 <=? nonce))%bool
  /\ (within_max_age w ->
      NonceManager.validateNonce nonce w =
        (Ok (negb (marked_used nonce w)
             && (current (nonceState (nonceManager w)) - 1000 <=? nonce))%bool,
         tick (tick w)))
  /\ (within_max_age (snd (NonceManager.markNonceUsed nonce w)) ->
      fst (NonceManager.validateNonce nonce (snd (NonceManager.markNonceUsed nonce w)))
      = Ok false).
Proof.
  split; [apply validateNonce_post|]. split; [apply validateNonce_within|].
  intros Hw. rewrite validateNonce_within by exact Hw. simpl.
  rewrite markNonceUsed_marks. reflexivity.
Qed.

(** C8 at the example store, within its max-age window: nonce 7 is valid,
    and is not any more once marked used. *)
Lemma C8_witness :
  NonceManager.validateNonce 7 Examples.fresh_world
    = (Ok true, tick (tick Examples.fresh_world))
  /\ fst (NonceManager.validateNonce 7
            (snd (NonceManager.markNonceUsed 7 Examples.fresh_world))) = Ok false.
Proof.
  destruct (C8_nonce_validation 7 Examples.fresh_world) as (_ & Hvalid & Hmarked).
  split.
  - exact (Hvalid fresh_world_within).
  - exact (Hmarked (markNonceUsed_within 7 Examples.fresh_world fresh_world_within)).
Defined.

(** C8 fails as stated: nonce 5 has been marked used and is within 1000
    of the counter 6, but the tracker is past its max age; [validateNonce]
    clears the used set first and accepts the nonce. *)
Lemma C8_counterexample :
  marked_used 5 Examples.stale_world = true
  /\ current (nonceState (nonceManager Examples.stale_world)) - 1000 <= 5
  /\ fst (NonceManager.validateNonce 5 Examples.stale_world) = Ok true
  /\ used (nonceState (nonceManager
             (snd (NonceManager.validateNonce 5 Examples.stale_world)))) = ∅.
Proof. split; [reflexivity|]. split; [simpl; lia|]. split; reflexivity. Qed.

(** ** The domain configuration *)

Lemma run_DomainOp_heap (op : DomainOp) (this : nat) (w : World) (d : EIP712Domain) :
  domainConfigs w !! this = Some d ->
  domainConfigs (snd (run_DomainOp op this w))
  = <[this := DomainOp_effect op d]> (domainConfigs w).
Proof.
  intros Hd.
  destruct op; unfold run_DomainOp, DomainConfig.getDomain, DomainConfig.updateChainId,
    DomainConfig.updateVerifyingContract, DomainConfig.validate, DomainConfig.toString,
    DomainConfig.read, DomainConfig.write, mbind, M_bind, mret, M_ret; rewrite Hd; simpl;
    try reflexivity; symmetry; apply insert_id; exact Hd.
Qed.

(** C7, as amended. No operation of the domain-configuration component
    changes the stored name or version, and none builds a descriptor
    object: the heap keeps the same objects. [updateChainId] and
    [updateVerifyingContract] overwrite the chain identifier and the
    verifying contract of the existing object in place, so that the same
    reference reads the new value; the other operations leave the stored
    descriptor as it is. *)
Theorem C7_domain_updates_in_place (op : DomainOp) (this : nat) (w : World) (d : EIP712Domain) :
  domainConfigs w !! this = Some d ->
  domainConfigs (snd (run_DomainOp op this w))
    = <[this := DomainOp_effect op d]> (domainConfigs w)
  /\ dom (domainConfigs (snd (run_DomainOp op this w))) = dom (domainConfigs w)
  /\ name (DomainOp_effect op d) = name d
  /\ version (DomainOp_effect op d) = version d
  /\ chainId (DomainOp_effect op d)
     = match op with OpUpdateChainId c => c | _ => chainId d end
  /\ verifyingContract (DomainOp_effect op d)
     = match op with OpUpdateVerifyingContract v => v | _ => verifyingContract d end
  /\ fst (DomainConfig.getDomain this (snd (run_DomainOp op this w)))
     = Ok (DomainOp_effect op d).
Proof.
  intros Hd. pose proof (run_DomainOp_heap op this w d Hd) as Hheap.
  split; [exact Hheap|]. split.
  - rewrite Hheap. rewrite dom_insert_L.
    apply subseteq_union_1_L, singleton_subseteq_l, elem_of_dom. eauto.
  - repeat split; try (destruct op; reflexivity).
    unfold DomainConfig.getDomain, DomainConfig.read, mbind, M_bind, mret, M_ret.
    rewrite Hheap, lookup_insert_eq. simpl. destruct (DomainOp_effect op d); reflexivity.
Qed.

(** C7 at the example store: the chain of the configuration at reference 0
    is changed from 1 to 5. *)
Lemma C7_witness :
  domainConfigs (snd (run_DomainOp (OpUpdateChainId 5) 0%nat Examples.fresh_world))
  = <[0%nat := DomainOp_effect (OpUpdateChainId 5) Examples.domain0]>
      (domainConfigs Examples.fresh_world).
Proof.
  exact (proj1 (C7_domain_updates_in_place (OpUpdateChainId 5) 0%nat Examples.fresh_world
                  Examples.domain0 eq_refl)).
Defined.

(** C7 fails as stated: [updateChainId(5)] on the configuration built with
    chain 1 changes the chain identifier stored in that same object; the
    factory that holds the reference builds its next message with chain 5. *)
Lemma C7_counterexample :
  domainConfigs Examples.fresh_world !! 0%nat = Some Examples.domain0
  /\ chainId Examples.domain0 = 1
  /\ domainConfigs (snd (DomainConfig.updateChainId 5 0%nat Examples.fresh_world)) !! 0%nat
     = Some {| name := "EngineDex"; version := "1.0"; chainId := 5;
               verifyingContract := "0x1234567890123456789012345678901234567890" |}
  /\ option_map (fun m => chainId (domain m))
       (match fst (MessageFactory.createMessage Examples.factory0 Examples.deposit0
                     Examples.fresh_world) with Ok m => Some m | Throw _ => None end)
     = Some 1
  /\ option_map (fun m => chainId (domain m))
       (match fst (MessageFactory.createMessage Examples.factory0 Examples.deposit0
                     (snd (DomainConfig.updateChainId 5 0%nat Examples.fresh_world)))
        with Ok m => Some m | Throw _ => None end)
     = Some 5.
Proof. repeat split; reflexivity. Qed.

(** * Further properties *)

(** ** The nonce tracker: issuing, marking, expiry *)

(** Unfolding the store monad. *)
Ltac run_store :=
  unfold NonceManager.generateNonce, NonceManager.markNonceUsed, NonceManager.validateNonce,
    NonceManager.getState, NonceManager.reset, NonceManager.syncWithBackend,
    NonceManager.isNonceUsed, NonceManager.isNonceValid, NonceManager.cleanup,
    mbind, M_bind, mret, M_ret, Date_now, get_nonceState, get_maxAge, put_nonceState,
    put_nonceManager, lift, throw;
  simpl.

Lemma generateNonce_result (w : World) :
  fst (NonceManager.generateNonce w) = Ok (current (nonceState (nonceManager w)))
  /\ current (nonceState (nonceManager (snd (NonceManager.generateNonce w))))
     = current (nonceState (nonceManager w)) + 1
  /\ lastUpdated (nonceState (nonceManager (snd (NonceManager.generateNonce w))))
     = clock w (S (ticks w))
  /\ maxAge (nonceManager (snd (NonceManager.generateNonce w))) = maxAge (nonceManager w)
  /\ clock (snd (NonceManager.generateNonce w)) = clock w
  /\ ticks (snd (NonceManager.generateNonce w)) = S (S (ticks w))
  /\ domainConfigs (snd (NonceManager.generateNonce w)) = domainConfigs w
  /\ used (nonceState (nonceManager (snd (NonceManager.generateNonce w))))
     ⊆ used (nonceState (nonceManager w)).
Proof.
  run_store. destruct (_ <? _); simpl; repeat split; set_solver.
Qed.

Lemma generate_many_result (k : nat) (w : World) :
  fst (generate_many k w)
  = Ok (List.map (fun i => current (nonceState (nonceManager w)) + Z.of_nat i) (seq 0 k))
  /\ current (nonceState (nonceManager (snd (generate_many k w))))
     = current (nonceState (nonceManager w)) + Z.of_nat k.
Proof.
  revert w. induction k as [|k IH]; intros w.
  - simpl. split; [reflexivity|lia].
  - simpl generate_many. unfold mbind at 1 3, M_bind at 1 3.
    pose proof (generateNonce_result w) as (Hr & Hc & _).
    destruct (NonceManager.generateNonce w) as [r w1]. simpl in Hr, Hc. subst r.
    unfold mbind, M_bind. pose proof (IH w1) as (Hr1 & Hc1).
    destruct (generate_many k w1) as [r1 w2]. simpl in Hr1, Hc1. subst r1. simpl.
    split.
    + f_equal. f_equal; [f_equal; lia|].
      rewrite <- seq_shift, List.map_map. apply List.map_ext. intros i. rewrite Hc. lia.
    + rewrite Hc1, Hc. lia.
Qed.

(** X1. [generateNonce] returns the current counter and advances it by
    one, whether or not a max-age reset is due; [k] calls in a row issue
    the [k] consecutive values starting at the counter. *)
Theorem X1_generateNonce_consecutive (k : nat) (w : World) :
  fst (generate_many k w)
  = Ok (List.map (fun i => current (nonceState (nonceManager w)) + Z.of_nat i) (seq 0 k))
  /\ current (nonceState (nonceManager (snd (generate_many k w))))
     = current (nonceState (nonceManager w)) + Z.of_nat k
  /\ fst (NonceManager.generateNonce w) = Ok (current (nonceState (nonceManager w))).
Proof.
  pose proof (generate_many_result k w) as [H1 H2].
  pose proof (generateNonce_result w) as [H3 _]. auto.
Qed.

Lemma markNonceUsed_within_eq (n : Z) (w : World) :
  within_max_age w ->
  NonceManager.markNonceUsed n w
  = (Ok tt,
     with_nonceState
       {| current := current (nonceState (nonceManager w));
          used := {[ Z_toString n ]} ∪ used (nonceState (nonceManager w));
          lastUpdated := lastUpdated (nonceState (nonceManager w)) |} (tick w)).
Proof.
  intros Hw. unfold NonceManager.markNonceUsed. unfold mbind at 1, M_bind at 1.
  rewrite cleanup_within by exact Hw. reflexivity.
Qed.

Lemma isNonceUsed_within_eq (m : Z) (w : World) :
  within_max_age w ->
  NonceManager.isNonceUsed m w = (Ok (marked_used m w), tick w).
Proof.
  intros Hw. unfold NonceManager.isNonceUsed. unfold mbind at 1, M_bind at 1.
  rewrite cleanup_within by exact Hw. reflexivity.
Qed.

(** X2. Within the max-age window, after [markNonceUsed(n)] the query
    [isNonceUsed(m)] answers true for [m = n] and answers for every other
    nonce what it answered before: marking one nonce never marks another. *)
Theorem X2_markNonceUsed_isNonceUsed (n m : Z) (w : World) :
  within_max_age w ->
  fst (NonceManager.isNonceUsed m (snd (NonceManager.markNonceUsed n w)))
  = Ok (bool_decide (m = n) || marked_used m w)%bool.
Proof.
  intros Hw. pose proof (markNonceUsed_within n w Hw) as Hw1.
  rewrite isNonceUsed_within_eq by exact Hw1.
  rewrite markNonceUsed_within_eq by exact Hw.
  unfold marked_used. cbn [fst snd nonceManager nonceState used with_nonceState tick].
  f_equal. destruct (decide (m = n)) as [->|Hne].
  - rewrite (bool_decide_eq_true_2 (n = n)) by reflexivity.
    cbn [orb]. apply bool_decide_eq_true. set_solver.
  - rewrite (bool_decide_eq_false_2 (m = n)) by exact Hne. cbn [orb].
    apply bool_decide_ext. rewrite elem_of_union, elem_of_singleton.
    split; [intros [H|H]; [apply Z_toString_inj in H; contradiction|exact H]|auto].
Qed.

Lemma X2_witness :
  fst (NonceManager.isNonceUsed 8 (snd (NonceManager.markNonceUsed 7 Examples.fresh_world)))
  = Ok false.
Proof.
  exact (X2_markNonceUsed_isNonceUsed 7 8 Examples.fresh_world fresh_world_within).
Defined.

(** X3. A nonce more than 1000 below the current counter is rejected by
    [validateNonce] whatever the clock reads and whatever the used set
    holds. *)
Theorem X3_old_nonce_rejected (nonce : Z) (w : World) :
  nonce < current (nonceState (nonceManager w)) - 1000 ->
  fst (NonceManager.validateNonce nonce w) = Ok false.
Proof.
  intros Hold. rewrite validateNonce_post.
  replace (current (nonceState (nonceManager w)) - 1000 <=? nonce) with false.
  - rewrite Bool.andb_false_r. reflexivity.
  - symmetry. apply Z.leb_gt. exact Hold.
Qed.

Lemma X3_witness : fst (NonceManager.validateNonce (-995) Examples.fresh_world) = Ok false.
Proof. exact (X3_old_nonce_rejected (-995) Examples.fresh_world eq_refl). Defined.

(** X4. Once the tracker is past its max age, the next query forgets
    every used nonce: [isNonceUsed] answers false for all of them, and
    [validateNonce] accepts any nonce that is at least [current - 1000],
    one that was marked used included. *)
Theorem X4_expiry_forgets_used (nonce : Z) (w : World) :
  expired w ->
  fst (NonceManager.isNonceUsed nonce w) = Ok false
  /\ fst (NonceManager.validateNonce nonce w)
     = Ok (current (nonceState (nonceManager w)) - 1000 <=? nonce)
  /\ used (nonceState (nonceManager (snd (NonceManager.isNonceUsed nonce w)))) = ∅.
Proof.
  unfold expired. intros He. apply Z.ltb_lt in He.
  split; [|split].
  - run_store. rewrite He. reflexivity.
  - run_store. rewrite He. simpl.
    destruct (maxAge (nonceManager w) <? clock w (S (ticks w)) - clock w (ticks w));
      reflexivity.
  - run_store. rewrite He. reflexivity.
Qed.

Lemma stale_world_expired : expired Examples.stale_world.
Proof. unfold expired. simpl. lia. Qed.

Lemma X4_witness :
  fst (NonceManager.isNonceUsed 5 Examples.stale_world) = Ok false
  /\ fst (NonceManager.validateNonce 5 Examples.stale_world) = Ok true.
Proof.
  destruct (X4_expiry_forgets_used 5 Examples.stale_world stale_world_expired) as (H1 & H2 & _).
  split; [exact H1|exact H2].
Defined.

(** X5. [syncWithBackend(b)] makes [b + 1] the next nonce issued and keeps
    the used set without any max-age check; [reset(i)] makes [i] (0 when
    omitted) the next nonce issued and empties the used set. *)
Theorem X5_sync_and_reset (b : Z) (i : option Z) (w : World) :
  fst (NonceManager.generateNonce (snd (NonceManager.syncWithBackend b w))) = Ok (b + 1)
  /\ used (nonceState (nonceManager (snd (NonceManager.syncWithBackend b w))))
     = used (nonceState (nonceManager w))
  /\ lastUpdated (nonceState (nonceManager (snd (NonceManager.syncWithBackend b w))))
     = clock w (ticks w)
  /\ fst (NonceManager.generateNonce (snd (NonceManager.reset i w))) = Ok (default 0 i)
  /\ used (nonceState (nonceManager (snd (NonceManager.reset i w)))) = ∅.
Proof.
  split; [|split; [|split; [|split]]].
  - rewrite (proj1 (generateNonce_result _)). run_store. reflexivity.
  - run_store. reflexivity.
  - run_store. reflexivity.
  - rewrite (proj1 (generateNonce_result _)). run_store. reflexivity.
  - run_store. reflexivity.
Qed.

(** ** The message factory: creating and validating *)

Lemma Z_toString_nonempty (z : Z) : String.eqb (Z_toString z) "" = false.
Proof.
  apply String.eqb_neq. intros H. pose proof (Z_toString_decimal z) as Hd.
  rewrite H in Hd. discriminate Hd.
Qed.

Lemma bind_Ok {A B} (m : M A) (k : A -> M B) (w w' : World) (a : A) :
  m w = (Ok a, w') -> (m ≫= k) w = k a w'.
Proof. intros H. unfold mbind, M_bind. rewrite H. reflexivity. Qed.

Lemma bind_Throw {A B} (m : M A) (k : A -> M B) (w w' : World) (e : Thrown) :
  m w = (Throw e, w') -> (m ≫= k) w = (Throw e, w').
Proof. intros H. unfold mbind, M_bind. rewrite H. reflexivity. Qed.

Lemma createMessage_eq (this : MessageFactory.t) (op : SignableOperation) (w : World)
    (d : EIP712Domain) :
  domainConfigs w !! MessageFactory.domainConfig this = Some d ->
  exists t,
    MessageFactory.getTypesForOperation (operation op) = Ok t
    /\ MessageFactory.createMessage this op w
       = (Ok {| domain := d; types := t; primaryType := operation op;
                message := MessageFactory.serializeOperation op |}, w).
Proof.
  intros Hd. destruct (getTypesForOperation_signable op) as [t Ht]. exists t.
  split; [exact Ht|].
  unfold MessageFactory.createMessage, DomainConfig.getDomain, DomainConfig.read, lift,
    mbind, M_bind, mret, M_ret.
  rewrite Ht, Hd. destruct d; reflexivity.
Qed.

Lemma DomainConfig_validate_eq (this : nat) (w : World) :
  DomainConfig.validate this w
  = (match domainConfigs w !! this with
     | Some d => Ok ((0 <? chainId d)
                     && (String.length (verifyingContract d) =? 42)%nat
                     && DomainConfig.startsWith "0x" (verifyingContract d))%bool
     | None => Throw (ErrorObj "Cannot read properties of undefined (reading 'domain')")
     end, w).
Proof.
  unfold DomainConfig.validate, DomainConfig.read, mbind, M_bind, mret, M_ret.
  destruct (domainConfigs w !! this); reflexivity.
Qed.

Lemma run_creator_eq (this : MessageFactory.t) (c : Creator) (nonce deadline : option Z) :
  run_creator this c nonce deadline = create_with this (creator_op c) nonce deadline.
Proof. destruct c; reflexivity. Qed.

Lemma creator_op_fields (c : Creator) (n dl : Z) :
  op_nonce (creator_op c n dl) = n /\ op_deadline (creator_op c n dl) = dl
  /\ String.eqb (operation (creator_op c n dl)) "" = false.
Proof. destruct c; repeat split. Qed.

(** X6. A message created by any of the four creators with the nonce and
    the deadline left to the factory passes [validateMessage] with no
    error, when the domain configuration validates, the counter of the
    tracker is not marked used, [BigInt] reads back what [toString]
    writes, and the clock is steady between the two calls. *)
Theorem X6_created_message_validates (BigInt_of_string : string -> Outcome Z)
    (this : MessageFactory.t) (c : Creator) (w : World) :
  fst (DomainConfig.validate (MessageFactory.domainConfig this) w) = Ok true ->
  (forall z, BigInt_of_string (Z_toString z) = Ok z) ->
  marked_used (current (nonceState (nonceManager w))) w = false ->
  steady_clock w ->
  exists msg : SignableMessage,
    fst (run_creator this c None None w) = Ok msg
    /\ fst (MessageFactory.validateMessage BigInt_of_string this msg
              (snd (run_creator this c None None w)))
       = Ok {| MessageFactory.isValid := true; MessageFactory.errors := [] |}.
Proof.
  intros Hvalid Hparse Hunused Hclock. rewrite run_creator_eq.
  rewrite DomainConfig_validate_eq in Hvalid. simpl in Hvalid.
  destruct (domainConfigs w !! MessageFactory.domainConfig this) as [d|] eqn:Hd;
    [|discriminate Hvalid].
  pose proof (generateNonce_result w) as (Hn & Hcur & Hlast & Hage & Hclk & Hticks & Hdom & Hused).
  destruct (NonceManager.generateNonce w) as [r wg] eqn:Hgen. simpl in *. subst r.
  set (n := current (nonceState (nonceManager w))) in *.
  set (dl := clock w (S (S (ticks w))) / 1000 + 3600).
  assert (Hd1 : domainConfigs (tick wg) !! MessageFactory.domainConfig this = Some d).
  { simpl. rewrite Hdom. exact Hd. }
  destruct (createMessage_eq this (creator_op c n dl) (tick wg) d Hd1) as (t & Ht & Hcreate).
  pose proof (creator_op_fields c n dl) as (Hopn & Hopd & Hname).
  pose proof (serializeOperation_fields (creator_op c n dl)) as (Hfn & Hfd & _).
  rewrite Hopn in Hfn. rewrite Hopd in Hfd.
  assert (Hcm : create_with this (creator_op c) None None w
                = (Ok {| domain := d; types := t; primaryType := operation (creator_op c n dl);
                         message := MessageFactory.serializeOperation (creator_op c n dl) |},
                   tick wg)).
  { unfold create_with, MessageFactory.nonce_or_generate.
    rewrite (bind_Ok _ _ _ _ _ Hgen).
    unfold MessageFactory.deadline_or_default.
    unfold mbind at 1, M_bind at 1. unfold mbind at 1, M_bind at 1.
    unfold Date_now at 1. unfold mret at 1, M_ret at 1.
    rewrite Hticks, Hclk. exact Hcreate. }
  rewrite Hcm. eexists. split; [reflexivity|]. simpl snd.
  assert (Hw1 : within_max_age (tick wg)).
  { intros k Hk. simpl in *. rewrite Hclk, Hlast, Hage.
    apply (Hclock (S (ticks w)) k); lia. }
  unfold MessageFactory.validateMessage.
  assert (Hv1 : DomainConfig.validate (MessageFactory.domainConfig this) (tick wg)
                = (Ok true, tick wg)).
  { rewrite DomainConfig_validate_eq, Hd1. injection Hvalid as Hvalid. rewrite Hvalid.
    reflexivity. }
  rewrite (bind_Ok _ _ _ _ _ Hv1).
  cbn [primaryType message MessageFactory.push_unless].
  rewrite Hfn, Hfd, Hname.
  cbn [truthy_value MessageFactory.BigInt]. rewrite !Z_toString_nonempty. cbn [negb].
  rewrite !Hparse.
  unfold mbind at 1, M_bind at 1. unfold mbind at 1, M_bind at 1.
  unfold mbind at 1, M_bind at 1. unfold lift at 1.
  unfold mbind at 1, M_bind at 1.
  rewrite validateNonce_within by exact Hw1.
  assert (Hm : marked_used n (tick wg) = false).
  { unfold marked_used in *. simpl. apply bool_decide_eq_false.
    apply bool_decide_eq_false in Hunused. set_solver. }
  rewrite Hm. simpl nonceManager. rewrite Hcur.
  replace (n + 1 - 1000 <=? n) with true by (symmetry; apply Z.leb_le; lia).
  cbn [negb andb]. unfold mret at 1, M_ret at 1.
  cbn [MessageFactory.push_unless].
  unfold mbind, M_bind, lift, Date_now, mret, M_ret. simpl.
  rewrite Hticks, Hclk.
  replace (dl <=? clock w (S (S (S (S (S (ticks w)))))) / 1000) with false; [reflexivity|].
  symmetry. apply Z.leb_gt. unfold dl.
  apply (Hclock (S (S (ticks w))) (S (S (S (S (S (ticks w))))))); lia.
Qed.

Lemma Examples_BigInt_reads_back (z : Z) : Examples.BigInt_of_string (Z_toString z) = Ok z.
Proof. unfold Examples.BigInt_of_string. rewrite Z_toString_decimal. reflexivity. Qed.

Lemma test_world_steady : steady_clock MoreExamples.test_world.
Proof. intros j k _ _. simpl. split; [lia|reflexivity]. Qed.

(** X6 at the store of the tests: a deposit of 10^18 units. *)
Lemma X6_witness :
  exists msg : SignableMessage,
    fst (run_creator Examples.factory0
           (CreateDeposit Examples.alice 1000000000000000000 "0x0") None None
           MoreExamples.test_world) = Ok msg
    /\ fst (MessageFactory.validateMessage Examples.BigInt_of_string Examples.factory0 msg
              (snd (run_creator Examples.factory0
                      (CreateDeposit Examples.alice 1000000000000000000 "0x0") None None
                      MoreExamples.test_world)))
       = Ok {| MessageFactory.isValid := true; MessageFactory.errors := [] |}.
Proof.
  exact (X6_created_message_validates Examples.BigInt_of_string Examples.factory0
           (CreateDeposit Examples.alice 1000000000000000000 "0x0")
           MoreExamples.test_world eq_refl Examples_BigInt_reads_back eq_refl
           test_world_steady).
Defined.

Lemma DomainConfig_validate_Some (this : nat) (w : World) (d : EIP712Domain) :
  domainConfigs w !! this = Some d ->
  DomainConfig.validate this w
  = (Ok ((0 <? chainId d) && (String.length (verifyingContract d) =? 42)%nat
         && DomainConfig.startsWith "0x" (verifyingContract d))%bool, w).
Proof. intros Hd. rewrite DomainConfig_validate_eq, Hd. reflexivity. Qed.

(** X7. [validateMessage] throws, instead of returning a validation, when
    the nonce of the message is a non-empty string that [BigInt] cannot
    read; the store is left as it was. *)
Theorem X7_validateMessage_throws_on_unreadable_nonce
    (BigInt_of_string : string -> Outcome Z) (this : MessageFactory.t)
    (msg : SignableMessage) (w : World) (d : EIP712Domain) (s : string) (e : Thrown) :
  domainConfigs w !! MessageFactory.domainConfig this = Some d ->
  get_field "nonce" (message msg) = JsString s ->
  String.eqb s "" = false ->
  BigInt_of_string s = Throw e ->
  MessageFactory.validateMessage BigInt_of_string this msg w = (Throw e, w).
Proof.
  intros Hd Hf Hs He. unfold MessageFactory.validateMessage.
  rewrite (bind_Ok _ _ _ _ _ (DomainConfig_validate_Some _ _ _ Hd)). rewrite Hf.
  cbn [truthy_value MessageFactory.BigInt]. rewrite Hs, He. reflexivity.
Qed.

Lemma X7_witness :
  MessageFactory.validateMessage Examples.BigInt_of_string Examples.factory0
    MoreExamples.msg_bad_nonce MoreExamples.test_world
  = (Throw (ErrorObj "Cannot convert seven to a BigInt"), MoreExamples.test_world).
Proof.
  exact (X7_validateMessage_throws_on_unreadable_nonce Examples.BigInt_of_string
           Examples.factory0 MoreExamples.msg_bad_nonce MoreExamples.test_world
           Examples.domain0 "seven" _ eq_refl eq_refl eq_refl eq_refl).
Defined.

(** X8. A message whose nonce and deadline fields are missing or falsy
    (the empty string, the number 0) is validated without consulting the
    nonce tracker or the clock: the verdict rests on the domain
    configuration and the primary type alone, and the store is unchanged. *)
Theorem X8_validateMessage_skips_falsy_fields
    (BigInt_of_string : string -> Outcome Z) (this : MessageFactory.t)
    (msg : SignableMessage) (w : World) (d : EIP712Domain) :
  domainConfigs w !! MessageFactory.domainConfig this = Some d ->
  truthy_value (get_field "nonce" (message msg)) = false ->
  truthy_value (get_field "deadline" (message msg)) = false ->
  MessageFactory.validateMessage BigInt_of_string this msg w
  = (Ok {| MessageFactory.isValid :=
             ((0 <? chainId d) && (String.length (verifyingContract d) =? 42)%nat
              && DomainConfig.startsWith "0x" (verifyingContract d)
              && negb (String.eqb (primaryType msg) ""))%bool;
           MessageFactory.errors :=
             MessageFactory.push_unless (negb (String.eqb (primaryType msg) ""))
               "Invalid message structure"
               (MessageFactory.push_unless
                  ((0 <? chainId d) && (String.length (verifyingContract d) =? 42)%nat
                   && DomainConfig.startsWith "0x" (verifyingContract d))%bool
                  "Invalid domain configuration" []) |}, w).
Proof.
  intros Hd Hn Hdl. unfold MessageFactory.validateMessage.
  rewrite (bind_Ok _ _ _ _ _ (DomainConfig_validate_Some _ _ _ Hd)). rewrite Hn, Hdl.
  unfold mbind, M_bind, mret, M_ret.
  destruct ((0 <? chainId d) && (String.length (verifyingContract d) =? 42)%nat
            && DomainConfig.startsWith "0x" (verifyingContract d))%bool;
    destruct (String.eqb (primaryType msg) ""); reflexivity.
Qed.

Lemma X8_witness :
  fst (MessageFactory.validateMessage Examples.BigInt_of_string Examples.factory0
         MoreExamples.msg_zero_nonce Examples.stale_world)
  = Ok {| MessageFactory.isValid := true; MessageFactory.errors := [] |}
  /\ snd (MessageFactory.validateMessage Examples.BigInt_of_string Examples.factory0
            MoreExamples.msg_zero_nonce Examples.stale_world) = Examples.stale_world.
Proof.
  rewrite (X8_validateMessage_skips_falsy_fields Examples.BigInt_of_string Examples.factory0
             MoreExamples.msg_zero_nonce Examples.stale_world Examples.domain0
             eq_refl eq_refl eq_refl).
  split; reflexivity.
Defined.

Lemma createMessage_store (this : MessageFactory.t) (op : SignableOperation) (w : World) :
  snd (MessageFactory.createMessage this op w) = w.
Proof.
  unfold MessageFactory.createMessage, DomainConfig.getDomain, DomainConfig.read, lift,
    mbind, M_bind, mret, M_ret.
  destruct (MessageFactory.getTypesForOperation (operation op)); [|reflexivity].
  destruct (domainConfigs w !! MessageFactory.domainConfig this); reflexivity.
Qed.

(** X9. Each of the four creators, given both a nonce and a deadline,
    builds the message of its operation without touching the store: the
    nonce tracker is neither advanced nor asked, and the clock is not
    read. With the nonce omitted, the message carries the current counter
    of the tracker as its nonce and the counter advances by one. *)
Theorem X9_creators_and_tracker (this : MessageFactory.t) (c : Creator)
    (n dl : Z) (deadline : option Z) (w : World) (d : EIP712Domain) :
  domainConfigs w !! MessageFactory.domainConfig this = Some d ->
  run_creator this c (Some n) (Some dl) w
    = MessageFactory.createMessage this (creator_op c n dl) w
  /\ snd (run_creator this c (Some n) (Some dl) w) = w
  /\ current (nonceState (nonceManager (snd (run_creator this c None deadline w))))
     = current (nonceState (nonceManager w)) + 1
  /\ exists msg : SignableMessage,
       fst (run_creator this c None deadline w) = Ok msg
       /\ get_field "nonce" (message msg)
          = JsString (Z_toString (current (nonceState (nonceManager w)))).
Proof.
  intros Hd. split; [destruct c; reflexivity|].
  split; [rewrite run_creator_eq; apply createMessage_store|].
  rewrite run_creator_eq.
  pose proof (generateNonce_result w) as (Hn & Hcur & _ & _ & _ & _ & Hdom & _).
  destruct (NonceManager.generateNonce w) as [r wg] eqn:Hgen. simpl in Hn, Hcur, Hdom.
  subst r.
  unfold create_with, MessageFactory.nonce_or_generate.
  rewrite (bind_Ok _ _ _ _ _ Hgen).
  assert (Hstep : exists dl' w1,
             MessageFactory.deadline_or_default deadline wg = (Ok dl', w1)
             /\ nonceManager w1 = nonceManager wg /\ domainConfigs w1 = domainConfigs wg).
  { destruct deadline as [dl0|]; simpl; eexists; eexists; repeat split. }
  destruct Hstep as (dl' & w1 & Hdl & Hnm & Hdm).
  rewrite (bind_Ok _ _ _ _ _ Hdl).
  assert (Hd1 : domainConfigs w1 !! MessageFactory.domainConfig this = Some d)
    by (rewrite Hdm, Hdom; exact Hd).
  destruct (createMessage_eq this (creator_op c (current (nonceState (nonceManager w))) dl')
              w1 d Hd1) as (t & _ & Hcreate).
  rewrite Hcreate. simpl fst. simpl snd. split.
  - rewrite Hnm. exact Hcur.
  - eexists. split; [reflexivity|]. simpl message.
    rewrite (proj1 (serializeOperation_fields _)).
    rewrite (proj1 (creator_op_fields c _ dl')). reflexivity.
Qed.

Lemma X9_witness :
  snd (run_creator Examples.factory0 (CreateOrderCancellation Examples.alice "order-1")
         (Some 7) (Some 9999) Examples.stale_world) = Examples.stale_world.
Proof.
  exact (proj1 (proj2 (X9_creators_and_tracker Examples.factory0
                         (CreateOrderCancellation Examples.alice "order-1") 7 9999 None
                         Examples.stale_world Examples.domain0 eq_refl))).
Defined.

(** X10. The type schema and the message of an operation agree: the
    schema that [getTypesForOperation] returns lists, under the name of
    the operation, exactly the keys of the message that
    [serializeOperation] builds, in the same order and without repeats;
    every [uint256] field of the schema is a decimal numeral in the
    message and every other field is a string. *)
Theorem X10_schema_matches_message (op : SignableOperation) :
  exists (t : EIP712Types) (fields_ : list TypeField),
    MessageFactory.getTypesForOperation (operation op) = Ok t
    /\ lookup_type (operation op) t = Some fields_
    /\ List.map tf_name fields_ = List.map fst (MessageFactory.serializeOperation op)
    /\ NoDup (List.map fst (MessageFactory.serializeOperation op))
    /\ forallb (field_agrees (MessageFactory.serializeOperation op)) fields_ = true.
Proof.
  destruct op; eexists; eexists; (split; [reflexivity|]); (split; [reflexivity|]);
    (split; [reflexivity|]); (split; [apply NoDup_ListNoDup; repeat constructor;
       simpl; intuition discriminate|]);
    cbn -[parse_decimal Z_toString]; unfold field_agrees; cbn -[parse_decimal Z_toString];
    rewrite ?Z_toString_decimal; reflexivity.
Qed.

(** ** Signing, and verifying what was signed *)

Section SigningProperties.

Import WalletProviders.

Variable verifyTypedData :
  EIP712Domain -> EIP712Types -> Fields -> string -> Outcome string.
Variable verifyTypedData_undefined :
  EIP712Domain -> EIP712Types -> Fields -> Outcome string.

(** A provider contributes a pair only if its signature recovers to the
    signer it is paired with. *)
Lemma sign_with_recovers (msg : SignableMessage) (provider : WalletProvider)
    (sg sr : string) :
  sign_with verifyTypedData msg provider = Ok (sg, sr) ->
  verifyTypedData (domain msg) (types msg) (message msg) sg = Ok sr.
Proof.
  unfold sign_with, recoverSigner, mbind, Outcome_bind, obind.
  destruct (getConnection provider) as [connection|e]; [|discriminate].
  destruct (if needs_connect connection
            then match connect provider with Ok _ => Ok tt | Throw e => Throw e end
            else Ok tt) as [[]|e]; [|discriminate].
  destruct (signTypedData provider msg) as [s|e]; [|discriminate].
  destruct (verifyTypedData _ _ _ s) as [r|e] eqn:Hr; simpl; [|discriminate].
  intros H. injection H as <- <-. exact Hr.
Qed.

Lemma signed_pairs_recover (msg : SignableMessage) (providers : list WalletProvider) :
  Forall (fun p => verifyTypedData (domain msg) (types msg) (message msg) (fst p)
                   = Ok (snd p))
    (signed_pairs verifyTypedData msg providers).
Proof.
  unfold signed_pairs. induction providers as [|provider rest IH]; [constructor|].
  simpl. destruct (sign_with verifyTypedData msg provider) as [[sg sr]|e] eqn:Hs; [|exact IH].
  constructor; [|exact IH]. simpl. eapply sign_with_recovers. exact Hs.
Qed.

Lemma sign_loop_eq (msg : SignableMessage) (providers : list WalletProvider)
    (sigs signers_ errors_ : list string) :
  sign_loop verifyTypedData msg providers sigs signers_ errors_
  = ((sigs ++ List.map fst (signed_pairs verifyTypedData msg providers))%list,
     (signers_ ++ List.map snd (signed_pairs verifyTypedData msg providers))%list,
     (errors_ ++ signing_errors verifyTypedData msg providers)%list).
Proof.
  revert sigs signers_ errors_. induction providers as [|provider rest IH];
    intros sigs signers_ errors_.
  - unfold signed_pairs, signing_errors. simpl. by rewrite !app_nil_r.
  - simpl sign_loop. unfold signed_pairs, signing_errors in *. simpl omap.
    destruct (sign_with verifyTypedData msg provider) as [[sg sr]|e]; simpl;
      rewrite IH; by rewrite <- !app_assoc.
Qed.

Lemma validCount_of_recovered (msg : SignableMessage) (pairs : list (string * string))
    (t : Z) (agg : option string) :
  Forall (fun p => verifyTypedData (domain msg) (types msg) (message msg) (fst p)
                   = Ok (snd p)) pairs ->
  validCount verifyTypedData
    {| signatures := List.map fst pairs; signers := List.map snd pairs; threshold := t;
       sa_message := msg; aggregateSignature := agg |}
  = length pairs.
Proof.
  intros Hall. unfold validCount. simpl.
  induction Hall as [|[sg sr] rest Hp _ IH]; [reflexivity|].
  simpl. unfold pair_valid at 1. simpl in *. rewrite Hp, String.eqb_refl. simpl.
  f_equal. exact IH.
Qed.

(** X11. [MultiSignStrategy.signMessage] asks every provider; it throws
    "Insufficient signatures" with every provider's error when fewer
    providers than the configured threshold produced a signature that
    recovers, and otherwise returns an aggregate of the signatures and
    their recovered signers, index-aligned and in provider order, with the
    configured threshold and, whatever the aggregation method, the
    concatenation of the signatures as the aggregate signature. *)
Theorem X11_multisign_signMessage (walletProviders : list WalletProvider)
    (this : MultiSignStrategy) (msg : SignableMessage) :
  MultiSign_signMessage verifyTypedData walletProviders this msg
  = (if Z.of_nat (length (signed_pairs verifyTypedData msg walletProviders))
        <? cfg_threshold (config this)
     then Throw (ErrorObj
                   ("Insufficient signatures: "
                    ++ Z_toString (Z.of_nat
                         (length (signed_pairs verifyTypedData msg walletProviders)))
                    ++ "/" ++ Z_toString (cfg_threshold (config this))
                    ++ ". Errors: "
                    ++ join ", " (signing_errors verifyTypedData msg walletProviders)))
     else Ok (Aggregate
                {| signatures := List.map fst (signed_pairs verifyTypedData msg walletProviders);
                   signers := List.map snd (signed_pairs verifyTypedData msg walletProviders);
                   threshold := cfg_threshold (config this);
                   sa_message := msg;
                   aggregateSignature :=
                     Some (join "" (List.map fst
                             (signed_pairs verifyTypedData msg walletProviders))) |}))
  /\ (length (signed_pairs verifyTypedData msg walletProviders)
      + length (signing_errors verifyTypedData msg walletProviders))%nat
     = length walletProviders.
Proof.
  split.
  - unfold MultiSign_signMessage. rewrite sign_loop_eq. simpl app.
    rewrite length_map.
    destruct (_ <? _); [reflexivity|].
    unfold aggregateSignatures. destruct (aggregationMethod this); reflexivity.
  - unfold signed_pairs, signing_errors.
    induction walletProviders as [|provider rest IH]; [reflexivity|].
    simpl. unfold omap in IH.
    destruct (sign_with verifyTypedData msg provider) as [[sg sr]|e]; simpl; lia.
Qed.

(** X12. Sign, then verify: with a positive configured threshold, every
    aggregate that [MultiSignStrategy.signMessage] returns is accepted by
    [MultiSignStrategy.verifySignature]. *)
Theorem X12_multisign_sign_then_verify (walletProviders : list WalletProvider)
    (this : MultiSignStrategy) (msg : SignableMessage) (result : SignatureResult) :
  0 < cfg_threshold (config this) ->
  MultiSign_signMessage verifyTypedData walletProviders this msg = Ok result ->
  MultiSign_verifySignature verifyTypedData this result = Ok true.
Proof.
  intros Hpos Hsign.
  unfold MultiSign_signMessage in Hsign. rewrite sign_loop_eq in Hsign. simpl app in Hsign.
  rewrite length_map in Hsign.
  set (pairs := signed_pairs verifyTypedData msg walletProviders) in *.
  destruct (Z.ltb_spec (Z.of_nat (length pairs)) (cfg_threshold (config this))) as [Hlt|Hge];
    [discriminate Hsign|].
  injection Hsign as <-.
  rewrite MultiSign_verifySignature_eq. cbn [signatures threshold].
  rewrite validCount_of_recovered by apply signed_pairs_recover.
  rewrite length_map.
  destruct (length pairs) as [|k] eqn:Hk; [simpl in Hge; lia|].
  cbn [Nat.eqb].
  replace (Z.of_nat (S k) <? cfg_threshold (config this)) with false
    by (symmetry; apply Z.ltb_ge; lia).
  f_equal. apply Z.leb_le. lia.
Qed.

(** X13. [SingleSignStrategy.signMessage] wraps every failure of the
    provider or of the recovery in a "Single sign failed" error, and
    every result it returns is accepted by
    [SingleSignStrategy.verifySignature]. *)
Theorem X13_singlesign_sign_then_verify (walletProvider : WalletProvider)
    (msg : SignableMessage) :
  (forall result : SignatureResult,
     SingleSign_signMessage verifyTypedData walletProvider msg = Ok result ->
     SingleSign_verifySignature verifyTypedData verifyTypedData_undefined result = Ok true)
  /\ (forall e : Thrown,
        sign_with verifyTypedData msg walletProvider = Throw e ->
        SingleSign_signMessage verifyTypedData walletProvider msg
        = Throw (ErrorObj ("Single sign failed: " ++ error_message e))).
Proof.
  split.
  - intros result Hsign. unfold SingleSign_signMessage in Hsign.
    destruct (sign_with verifyTypedData msg walletProvider) as [[sg sr]|e] eqn:Hs;
      simpl in Hsign; [|discriminate Hsign].
    injection Hsign as <-. apply sign_with_recovers in Hs.
    unfold SingleSign_verifySignature, recoverSigner. simpl.
    rewrite Hs. simpl. rewrite String.eqb_refl. reflexivity.
  - intros e Hs. unfold SingleSign_signMessage. rewrite Hs. reflexivity.
Qed.

End SigningProperties.

(** X12 with three providers of which the second refuses to connect. *)
Lemma X12_witness :
  MultiSign_verifySignature Examples.recover MoreExamples.strategy_2
    (Aggregate {| signatures := [Examples.alice; Examples.carol];
                  signers := [Examples.alice; Examples.carol];
                  threshold := 2; sa_message := Examples.msg0;
                  aggregateSignature := Some (Examples.alice ++ Examples.carol) |})
  = Ok true.
Proof.
  exact (X12_multisign_sign_then_verify Examples.recover MoreExamples.providers_3
           MoreExamples.strategy_2 Examples.msg0 _ eq_refl eq_refl).
Defined.

(** X13 with a provider that is connected and signs. *)
Lemma X13_witness :
  SingleSign_verifySignature Examples.recover (fun _ _ _ => Throw NonError)
    (Single {| signature := Examples.alice; signer := Examples.alice;
               ss_message := Examples.msg0 |}) = Ok true
  /\ SingleSign_signMessage Examples.recover (MoreExamples.refusing_provider "B") Examples.msg0
     = Throw (ErrorObj "Single sign failed: User rejected the request").
Proof.
  destruct (X13_singlesign_sign_then_verify Examples.recover (fun _ _ _ => Throw NonError)
              (MoreExamples.connected_provider "A" Examples.alice) Examples.msg0) as [Hok _].
  destruct (X13_singlesign_sign_then_verify Examples.recover (fun _ _ _ => Throw NonError)
              (MoreExamples.refusing_provider "B") Examples.msg0) as [_ Hfail].
  split.
  - exact (Hok _ eq_refl).
  - exact (Hfail _ eq_refl).
Defined.

(** ** Collecting: the other two collectors, and the wallet registry *)

Section MoreCollection.

Import Wallets.

Variable msg : SignableMessage.

Lemma wagmi_collect_loop_eq (wallets : WalletMap) (sigs : list Collected)
    (calls : list WalletCall) :
  WagmiMultiSignStrategy.collect_loop msg wallets sigs calls
  = match split_at_throw msg wallets with
    | (before, None) =>
        ((calls ++ calls_of msg before)%list, Ok (sigs ++ successes msg before)%list)
    | (before, Some kv) =>
        ((calls ++ calls_of msg (before ++ [kv]))%list,
         Throw (ErrorObj ("Failed to collect signature from wallet " ++ fst kv)))
    end.
Proof.
  revert sigs calls. induction wallets as [|[walletId wallet] rest IH]; intros sigs calls.
  - simpl. unfold calls_of, successes. simpl. by rewrite !app_nil_r.
  - simpl WagmiMultiSignStrategy.collect_loop. simpl split_at_throw.
    destruct (attempt msg walletId wallet) as [cs [[entry|]|e]] eqn:Ha; simpl.
    + rewrite IH. destruct (split_at_throw msg rest) as [before [kv|]];
        unfold calls_of, successes, signer_success; simpl; rewrite Ha; simpl;
        by rewrite <- !app_assoc.
    + rewrite IH. destruct (split_at_throw msg rest) as [before [kv|]];
        unfold calls_of, successes, signer_success; simpl; rewrite Ha; simpl;
        by rewrite <- !app_assoc.
    + unfold calls_of. simpl. rewrite Ha. simpl. by rewrite app_nil_r.
Qed.

(** X14. [WagmiMultiSignStrategy.collectSignatures] is all or nothing:
    below the threshold it throws before any wallet is called; otherwise
    it asks the wallets in order, stops at the first one whose call
    throws, naming it in the error, and never calls the wallets after
    it; when no call throws it returns the entries of the wallets that
    have an address, in order. *)
Theorem X14_wagmi_collect_all_or_nothing (this : WagmiMultiSignStrategy.t) :
  WagmiMultiSignStrategy.collectSignatures this msg
  = if WagmiMultiSignStrategy.isThresholdMet this
    then match split_at_throw msg (WagmiMultiSignStrategy.connectedWallets this) with
         | (before, None) => (calls_of msg before, Ok (successes msg before))
         | (before, Some kv) =>
             (calls_of msg (before ++ [kv])%list,
              Throw (ErrorObj ("Failed to collect signature from wallet " ++ fst kv)))
         end
    else ([], Throw (ErrorObj
                       ("Multi-sign threshold not met. Required: "
                        ++ Z_toString (WagmiMultiSignStrategy.threshold this)
                        ++ ", Connected: "
                        ++ Z_toString (map_size (WagmiMultiSignStrategy.connectedWallets this))))).
Proof.
  unfold WagmiMultiSignStrategy.collectSignatures.
  destruct (WagmiMultiSignStrategy.isThresholdMet this); [|reflexivity].
  simpl negb. cbv iota. rewrite wagmi_collect_loop_eq.
  destruct (split_at_throw msg _) as [before [kv|]]; reflexivity.
Qed.

(** X15. [MultiSignWalletManager.collectSignatures] never throws and
    never looks at the threshold: it asks every connected wallet, in
    order, and returns the entries of those that signed, which may be
    none at all. *)
Theorem X15_manager_collect_never_throws (wallets : WalletMap) (t t' : Z) :
  MultiSignWalletManager.collectSignatures
    {| MultiSignWalletManager.connectedWallets := wallets;
       MultiSignWalletManager.threshold := t |} msg
  = (calls_of msg wallets, Ok (successes msg wallets))
  /\ MultiSignWalletManager.collectSignatures
       {| MultiSignWalletManager.connectedWallets := wallets;
          MultiSignWalletManager.threshold := t' |} msg
     = MultiSignWalletManager.collectSignatures
         {| MultiSignWalletManager.connectedWallets := wallets;
            MultiSignWalletManager.threshold := t |} msg
  /\ (length (successes msg wallets) <= length wallets)%nat.
Proof.
  split; [|split].
  - unfold MultiSignWalletManager.collectSignatures. simpl.
    rewrite manager_collect_loop_eq. reflexivity.
  - reflexivity.
  - pose proof (successes_failures_length msg wallets). lia.
Qed.

End MoreCollection.

(** *** The registry of connected wallets *)

Lemma map_set_keys (k : string) (v : Wallets.EngineDexWalletProvider) (m : Wallets.WalletMap) :
  List.map fst (Wallets.map_set k v m)
  = if existsb (String.eqb k) (List.map fst m) then List.map fst m
    else (List.map fst m ++ [k])%list.
Proof.
  induction m as [|[k' v'] rest IH]; [reflexivity|].
  simpl. rewrite (String.eqb_sym k k').
  destruct (String.eqb_spec k' k) as [->|Hne]; simpl; [reflexivity|].
  rewrite IH. destruct (existsb _ _); reflexivity.
Qed.

Lemma existsb_eqb_In (k : string) (l : list string) :
  existsb (String.eqb k) l = true <-> In k l.
Proof.
  rewrite existsb_exists. split.
  - intros (x & Hx & He). apply String.eqb_eq in He. subst. exact Hx.
  - intros H. exists k. split; [exact H|apply String.eqb_refl].
Qed.

Lemma map_get_set (k : string) (v : Wallets.EngineDexWalletProvider) (m : Wallets.WalletMap) :
  map_get k (Wallets.map_set k v m) = Some v.
Proof.
  induction m as [|[k' v'] rest IH]; simpl; [by rewrite String.eqb_refl|].
  destruct (String.eqb_spec k' k) as [->|Hne]; simpl.
  - by rewrite String.eqb_refl.
  - destruct (String.eqb_spec k' k); [contradiction|exact IH].
Qed.

Lemma map_delete_keys (k : string) (m : Wallets.WalletMap) :
  List.map fst (Wallets.map_delete k m)
  = List.filter (fun k' => negb (String.eqb k' k)) (List.map fst m).
Proof.
  unfold Wallets.map_delete. induction m as [|[k' v'] rest IH]; [reflexivity|].
  simpl. destruct (String.eqb k' k); simpl; [exact IH|by rewrite IH].
Qed.

(** X16. The wallet registry never counts an identifier twice:
    [addWallet] of a wallet whose identifier is already registered
    replaces that wallet and leaves the number of wallets as it was,
    [addWallet] of a new identifier adds one at the end; the identifiers
    stay pairwise distinct, the wallet added is the one registered under
    its identifier, and a threshold that was met stays met. *)
Theorem X16_addWallet_no_double_count (wallet : Wallets.EngineDexWalletProvider)
    (this : Wallets.MultiSignWalletManager.t) :
  List.NoDup (List.map fst (Wallets.MultiSignWalletManager.connectedWallets this)) ->
  List.NoDup (List.map fst (Wallets.MultiSignWalletManager.connectedWallets
                              (Wallets.MultiSignWalletManager.addWallet wallet this)))
  /\ Wallets.map_size (Wallets.MultiSignWalletManager.connectedWallets
                         (Wallets.MultiSignWalletManager.addWallet wallet this))
     = (if existsb (String.eqb (Wallets.wallet_id wallet))
             (List.map fst (Wallets.MultiSignWalletManager.connectedWallets this))
        then Wallets.map_size (Wallets.MultiSignWalletManager.connectedWallets this)
        else Wallets.map_size (Wallets.MultiSignWalletManager.connectedWallets this) + 1)
  /\ map_get (Wallets.wallet_id wallet)
       (Wallets.MultiSignWalletManager.connectedWallets
          (Wallets.MultiSignWalletManager.addWallet wallet this)) = Some wallet
  /\ Wallets.MultiSignWalletManager.connectedWallets
       (Wallets.MultiSignWalletManager.addWallet wallet
          (Wallets.MultiSignWalletManager.addWallet wallet this))
     = Wallets.MultiSignWalletManager.connectedWallets
         (Wallets.MultiSignWalletManager.addWallet wallet this)
  /\ (Wallets.MultiSignWalletManager.isThresholdMet this = true ->
      Wallets.MultiSignWalletManager.isThresholdMet
        (Wallets.MultiSignWalletManager.addWallet wallet this) = true).
Proof.
  intros Hnd. destruct this as [m t]. simpl in *.
  set (k := Wallets.wallet_id wallet).
  assert (Hsize : Wallets.map_size (Wallets.map_set k wallet m)
                  = if existsb (String.eqb k) (List.map fst m)
                    then Wallets.map_size m else Wallets.map_size m + 1).
  { unfold Wallets.map_size. rewrite <- (length_map fst (Wallets.map_set k wallet m)).
    rewrite map_set_keys. destruct (existsb _ _).
    - by rewrite length_map.
    - rewrite length_app, length_map. simpl. lia. }
  split; [|split; [exact Hsize|split; [apply map_get_set|split]]].
  - rewrite map_set_keys. destruct (existsb _ _) eqn:He; [exact Hnd|].
    apply NoDup_ListNoDup. apply NoDup_app. split; [by apply NoDup_ListNoDup|].
    split; [|apply NoDup_singleton].
    intros x Hx Hx'. apply list_elem_of_singleton in Hx'. subst x.
    apply list_elem_of_In, existsb_eqb_In in Hx. congruence.
  - clear Hnd Hsize. induction m as [|[k' v'] rest IH]; simpl.
    + by rewrite String.eqb_refl.
    + destruct (String.eqb_spec k' k) as [->|Hne]; simpl.
      * by rewrite String.eqb_refl.
      * destruct (String.eqb_spec k' k); [contradiction|]. by rewrite IH.
  - unfold Wallets.MultiSignWalletManager.isThresholdMet,
      Wallets.MultiSignWalletManager.addWallet.
    cbn [Wallets.MultiSignWalletManager.connectedWallets
         Wallets.MultiSignWalletManager.threshold].
    fold k. rewrite Hsize.
    intros Hmet. apply Z.leb_le in Hmet. apply Z.leb_le.
    destruct (existsb _ _); lia.
Qed.

Lemma X16_witness :
  Wallets.map_size (Wallets.MultiSignWalletManager.connectedWallets
                      (Wallets.MultiSignWalletManager.addWallet
                         (Examples.rejecting_wallet "w1" Examples.bob) Examples.manager_1_of_2))
  = 1.
Proof.
  assert (Hnd : List.NoDup (List.map fst (Wallets.MultiSignWalletManager.connectedWallets
                                            Examples.manager_1_of_2))).
  { simpl. constructor; [simpl; tauto|constructor]. }
  exact (proj1 (proj2 (X16_addWallet_no_double_count
                         (Examples.rejecting_wallet "w1" Examples.bob)
                         Examples.manager_1_of_2 Hnd))).
Defined.

(** X17. [removeWallet] takes the identifier out of the registry and
    nothing else: the identifier is no longer registered, every other
    wallet stays registered in the same order, the identifiers stay
    pairwise distinct, and removing an identifier that was just added to
    a registry that did not have it gives the registry back. *)
Theorem X17_removeWallet (walletId : string) (wallet : Wallets.EngineDexWalletProvider)
    (this : Wallets.MultiSignWalletManager.t) :
  List.NoDup (List.map fst (Wallets.MultiSignWalletManager.connectedWallets this)) ->
  map_get walletId (Wallets.MultiSignWalletManager.connectedWallets
                      (Wallets.MultiSignWalletManager.removeWallet walletId this)) = None
  /\ List.map fst (Wallets.MultiSignWalletManager.connectedWallets
                     (Wallets.MultiSignWalletManager.removeWallet walletId this))
     = List.filter (fun k => negb (String.eqb k walletId))
         (List.map fst (Wallets.MultiSignWalletManager.connectedWallets this))
  /\ List.NoDup (List.map fst (Wallets.MultiSignWalletManager.connectedWallets
                                 (Wallets.MultiSignWalletManager.removeWallet walletId this)))
  /\ (map_get (Wallets.wallet_id wallet)
        (Wallets.MultiSignWalletManager.connectedWallets this) = None ->
      Wallets.MultiSignWalletManager.connectedWallets
        (Wallets.MultiSignWalletManager.removeWallet (Wallets.wallet_id wallet)
           (Wallets.MultiSignWalletManager.addWallet wallet this))
      = Wallets.MultiSignWalletManager.connectedWallets this).
Proof.
  intros Hnd. destruct this as [m t]. simpl in *. split; [|split; [|split]].
  - unfold Wallets.map_delete. clear Hnd. induction m as [|[k' v'] rest IH]; [reflexivity|].
    simpl. destruct (String.eqb_spec k' walletId) as [->|Hne]; simpl; [exact IH|].
    destruct (String.eqb_spec k' walletId); [contradiction|exact IH].
  - apply map_delete_keys.
  - rewrite map_delete_keys. apply List.NoDup_filter. exact Hnd.
  - clear Hnd. set (k := Wallets.wallet_id wallet). unfold Wallets.map_delete.
    induction m as [|[k' v'] rest IH]; simpl.
    + intros _. by rewrite String.eqb_refl.
    + destruct (String.eqb_spec k' k) as [->|Hne]; [discriminate|].
      intros Hget. simpl. destruct (String.eqb_spec k' k); [contradiction|].
      simpl. f_equal. apply IH. exact Hget.
Qed.

Lemma X17_witness :
  Wallets.MultiSignWalletManager.connectedWallets
    (Wallets.MultiSignWalletManager.removeWallet "w9"
       (Wallets.MultiSignWalletManager.addWallet
          (Examples.signing_wallet "w9" Examples.carol) Examples.manager_1_of_2))
  = Wallets.MultiSignWalletManager.connectedWallets Examples.manager_1_of_2.
Proof.
  assert (Hnd : List.NoDup (List.map fst (Wallets.MultiSignWalletManager.connectedWallets
                                            Examples.manager_1_of_2))).
  { simpl. constructor; [simpl; tauto|constructor]. }
  exact (proj2 (proj2 (proj2 (X17_removeWallet "w9"
                                (Examples.signing_wallet "w9" Examples.carol)
                                Examples.manager_1_of_2 Hnd))) eq_refl).
Defined.

(** ** Utilities: random nonces, deadlines, the three message checks *)

Lemma bytes_to_bigint_snoc (l : list Z) (b : Z) :
  VerificationUtils.bytes_to_bigint (l ++ [b])%list
  = VerificationUtils.bytes_to_bigint l * 256 + b.
Proof.
  unfold VerificationUtils.bytes_to_bigint. rewrite fold_left_app. simpl.
  rewrite Z.shiftl_mul_pow2 by lia. reflexivity.
Qed.

Lemma bytes_to_bigint_bounds (l : list Z) :
  Forall is_byte l ->
  0 <= VerificationUtils.bytes_to_bigint l < 256 ^ Z.of_nat (length l).
Proof.
  induction l as [|b l IH] using rev_ind; intros Hall.
  - simpl. unfold VerificationUtils.bytes_to_bigint. simpl. lia.
  - apply Forall_app in Hall as [Hl Hb]. apply Forall_inv in Hb. unfold is_byte in Hb.
    specialize (IH Hl). rewrite bytes_to_bigint_snoc, length_app. simpl length.
    rewrite Nat2Z.inj_add. simpl Z.of_nat. rewrite Z.pow_add_r by lia.
    change (256 ^ 1) with 256. nia.
Qed.

Lemma bytes_round_trip (l : list Z) :
  Forall is_byte l ->
  bigint_to_bytes (length l) (VerificationUtils.bytes_to_bigint l) = l.
Proof.
  induction l as [|b l IH] using rev_ind; intros Hall; [reflexivity|].
  apply Forall_app in Hall as [Hl Hb]. apply Forall_inv in Hb. unfold is_byte in Hb.
  rewrite bytes_to_bigint_snoc, length_app. simpl length. rewrite Nat.add_1_r.
  simpl bigint_to_bytes.
  replace ((VerificationUtils.bytes_to_bigint l * 256 + b) / 256)
    with (VerificationUtils.bytes_to_bigint l)
    by (apply Z.div_unique with b; lia).
  replace ((VerificationUtils.bytes_to_bigint l * 256 + b) mod 256) with b
    by (apply Z.mod_unique with (VerificationUtils.bytes_to_bigint l); lia).
  rewrite IH by exact Hl. reflexivity.
Qed.

(** X18. [generateSecureNonce] reads its 32 random bytes as one number,
    most significant byte first: the nonce is at least 0 and below 2^256,
    and two different fillings of the array give two different nonces. *)
Theorem X18_generateSecureNonce (random_bytes other_bytes : list Z) :
  Forall is_byte random_bytes -> length random_bytes = 32%nat ->
  Forall is_byte other_bytes -> length other_bytes = 32%nat ->
  0 <= VerificationUtils.generateSecureNonce random_bytes < 2 ^ 256
  /\ (VerificationUtils.generateSecureNonce random_bytes
      = VerificationUtils.generateSecureNonce other_bytes ->
      random_bytes = other_bytes).
Proof.
  intros Hb Hlen Hb' Hlen'. unfold VerificationUtils.generateSecureNonce.
  rewrite !take_ge by lia. split.
  - pose proof (bytes_to_bigint_bounds random_bytes Hb) as H. rewrite Hlen in H.
    change (256 ^ Z.of_nat 32) with (2 ^ 256) in H. exact H.
  - intros Heq. rewrite <- (bytes_round_trip random_bytes Hb).
    rewrite <- (bytes_round_trip other_bytes Hb'). rewrite Hlen, Hlen', Heq. reflexivity.
Qed.

Lemma thirty_two_bytes_ok : Forall is_byte MoreExamples.thirty_two_bytes.
Proof. unfold MoreExamples.thirty_two_bytes. repeat constructor; unfold is_byte; lia. Qed.

Lemma X18_witness :
  0 <= VerificationUtils.generateSecureNonce MoreExamples.thirty_two_bytes < 2 ^ 256.
Proof.
  exact (proj1 (X18_generateSecureNonce MoreExamples.thirty_two_bytes
                  MoreExamples.thirty_two_bytes thirty_two_bytes_ok eq_refl
                  thirty_two_bytes_ok eq_refl)).
Defined.

Lemma matches_0x_hex_shape (n : nat) (s : string) :
  WalletChecks.matches_0x_hex n s = true ->
  String.length s = S (S n) /\ String.prefix "0x" s = true /\ String.eqb s "" = false.
Proof.
  unfold WalletChecks.matches_0x_hex.
  destruct s as [|c0 s1]; [discriminate|].
  destruct c0 as [[] [] [] [] [] [] [] []]; try discriminate.
  destruct s1 as [|c1 rest]; [discriminate|].
  destruct c1 as [[] [] [] [] [] [] [] []]; try discriminate.
  intros H. apply andb_prop in H as [Hlen _]. apply Nat.eqb_eq in Hlen.
  simpl. rewrite Hlen. repeat split. destruct rest; reflexivity.
Qed.

(** X19. The message checks are nested up to the chain identifier: a
    message that [WagmiSingleSignStrategy.validateMessage] accepts is
    reported valid, with no error, by [validateMessageStructure];
    [WagmiSecurityValidator.validateDomain] accepts its domain exactly
    when the chain identifier is an integer, which [validateMessage] does
    not ask for; and when it is an integer, a [DomainConfig] holding that
    domain validates. *)
Theorem X19_message_checks_nested (msg : MessageInput) :
  WalletChecks.validateMessage msg = true ->
  VerificationUtils.validateMessageStructure msg
    = {| VerificationUtils.isValid := true; VerificationUtils.errors := [] |}
  /\ WalletChecks.validateDomain (in_domain msg)
     = Number_isInteger (in_chainId (in_domain msg))
  /\ forall (z : Z) (this : nat) (w : World),
       in_chainId (in_domain msg) = NumInt z ->
       domainConfigs w !! this
       = Some {| name := in_name (in_domain msg); version := in_version (in_domain msg);
                 chainId := z; verifyingContract := in_verifyingContract (in_domain msg) |} ->
       fst (DomainConfig.validate this w) = Ok true.
Proof.
  unfold WalletChecks.validateMessage. intros Hv.
  destruct (String.eqb (in_name (in_domain msg)) "") eqn:Hn; [discriminate Hv|].
  destruct (String.eqb (in_version (in_domain msg)) "") eqn:Hver; [discriminate Hv|].
  destruct (num_le_0 (in_chainId (in_domain msg))) eqn:Hc; [discriminate Hv|].
  destruct (String.eqb (in_verifyingContract (in_domain msg)) "") eqn:Hvc; [discriminate Hv|].
  destruct (WalletChecks.matches_0x_hex 40 (in_verifyingContract (in_domain msg))) eqn:Ha;
    [|discriminate Hv].
  simpl in Hv. destruct (String.eqb (in_primaryType msg) "") eqn:Hp; [discriminate Hv|].
  destruct (matches_0x_hex_shape _ _ Ha) as (Hlen & Hpre & _).
  split; [|split].
  - unfold VerificationUtils.validateMessageStructure, VerificationUtils.push_if.
    rewrite Hn, Hver, Hc, Hvc, Hpre, Hp. reflexivity.
  - unfold WalletChecks.validateDomain, WalletChecks.validateChainId, WalletChecks.isValidAddress.
    rewrite Ha.
    apply String.eqb_neq in Hn. apply String.eqb_neq in Hver.
    destruct (in_name (in_domain msg)); [contradiction|].
    destruct (in_version (in_domain msg)); [contradiction|].
    destruct (in_chainId (in_domain msg)) as [z|below| |positive]; simpl in *;
      try reflexivity.
    apply Z.leb_gt in Hc. replace (0 <? z) with true by (symmetry; apply Z.ltb_lt; lia).
    reflexivity.
  - intros z this w Hz Hd. rewrite Hz in Hc. simpl in Hc. apply Z.leb_gt in Hc.
    rewrite (DomainConfig_validate_Some _ _ _ Hd). simpl. f_equal.
    unfold DomainConfig.startsWith. rewrite Hlen, Hpre.
    replace (0 <? z) with true by (symmetry; apply Z.ltb_lt; lia).
    reflexivity.
Qed.

Lemma X19_witness :
  VerificationUtils.validateMessageStructure MoreExamples.msg_valid_domain
    = {| VerificationUtils.isValid := true; VerificationUtils.errors := [] |}
  /\ WalletChecks.validateDomain (in_domain MoreExamples.msg_valid_domain) = true
  /\ fst (DomainConfig.validate 0%nat
            {| domainConfigs :=
                 {[ 0%nat := {| name := "EngineDex"; version := "1.0"; chainId := 1;
                                verifyingContract := MoreExamples.valid_address |} ]};
               nonceManager := nonceManager MoreExamples.test_world;
               clock := fun _ => 0; ticks := 0 |}) = Ok true.
Proof.
  destruct (X19_message_checks_nested MoreExamples.msg_valid_domain eq_refl)
    as (Hs & Hd & Hc).
  split; [exact Hs|]. split; [exact Hd|].
  exact (Hc 1 0%nat
           {| domainConfigs :=
                {[ 0%nat := {| name := "EngineDex"; version := "1.0"; chainId := 1;
                               verifyingContract := MoreExamples.valid_address |} ]};
              nonceManager := nonceManager MoreExamples.test_world;
              clock := fun _ => 0; ticks := 0 |} eq_refl eq_refl).
Defined.

(** With the chain identifier 1.5 the strategy's check and the structure
    check accept the message and [validateDomain] refuses its domain. *)
Example fractional_chain_checks :
  WalletChecks.validateMessage MoreExamples.msg_fractional_chain = true
  /\ VerificationUtils.isValid
       (VerificationUtils.validateMessageStructure MoreExamples.msg_fractional_chain) = true
  /\ WalletChecks.validateDomain (in_domain MoreExamples.msg_fractional_chain) = false.
Proof. repeat split. Qed.

(** X20. A deadline made by [generateDeadline] with its default offset of
    one hour is accepted by [validateDeadline] as long as the clock stays
    steady; one made with offset 0 is refused whenever the clock has not
    gone back, a deadline having to lie strictly after the current second. *)
Theorem X20_generated_deadline (w : World) :
  (steady_clock w ->
   forall deadline : Z,
     fst (VerificationUtils.generateDeadline None w) = Ok deadline ->
     fst (VerificationUtils.validateDeadline deadline
            (snd (VerificationUtils.generateDeadline None w))) = Ok true)
  /\ (clock w (ticks w) <= clock w (S (ticks w)) ->
      forall deadline : Z,
        fst (VerificationUtils.generateDeadline (Some 0) w) = Ok deadline ->
        fst (VerificationUtils.validateDeadline deadline
               (snd (VerificationUtils.generateDeadline (Some 0) w))) = Ok false).
Proof.
  unfold VerificationUtils.generateDeadline, VerificationUtils.validateDeadline,
    mbind, M_bind, mret, M_ret, Date_now. simpl. split.
  - intros Hclock deadline H. injection H as <-. f_equal. apply Z.ltb_lt.
    apply (Hclock (ticks w) (S (ticks w))); lia.
  - intros Hmono deadline H. injection H as <-. f_equal. apply Z.ltb_ge.
    rewrite Z.add_0_r. apply Z.div_le_mono; lia.
Qed.

Lemma X20_witness :
  fst (VerificationUtils.validateDeadline 3601
         (snd (VerificationUtils.generateDeadline None MoreExamples.test_world))) = Ok true.
Proof.
  exact (proj1 (X20_generated_deadline MoreExamples.test_world) test_world_steady
           3601 eq_refl).
Defined.

(** X21. The utility [validateNonce] accepts a nonce only if it is
    positive: the nonce 0 that a [NonceManager] constructed with its
    defaults issues first, and that the tracker itself accepts, is
    refused by the utility whatever the used set. *)
Theorem X21_utility_refuses_first_nonce (maxAge_ : option Z) (usedNonces : gset string)
    (w : World) :
  (forall k, clock w k = clock w (ticks w)) ->
  0 <= default (24 * 60 * 60 * 1000) maxAge_ ->
  fst (NonceManager.generateNonce (snd (NonceManager.new None maxAge_ w))) = Ok 0
  /\ fst (NonceManager.validateNonce 0
            (snd (NonceManager.generateNonce (snd (NonceManager.new None maxAge_ w)))))
     = Ok true
  /\ VerificationUtils.validateNonce 0 usedNonces = false
  /\ (forall nonce, nonce <= 0 -> VerificationUtils.validateNonce nonce usedNonces = false).
Proof.
  intros Hclock Hage. split; [|split; [|split]].
  - rewrite (proj1 (generateNonce_result _)). reflexivity.
  - set (w1 := snd (NonceManager.new None maxAge_ w)).
    assert (Hw1 : clock w1 = clock w /\ maxAge (nonceManager w1)
                                        = default (24 * 60 * 60 * 1000) maxAge_
                  /\ used (nonceState (nonceManager w1)) = ∅
                  /\ current (nonceState (nonceManager w1)) = 0).
    { unfold w1, NonceManager.new. run_store. repeat split. }
    destruct Hw1 as (Hc1 & Ha1 & Hu1 & Hcur1).
    pose proof (generateNonce_result w1) as (_ & Hcur & Hlast & Hage2 & Hclk & _ & _ & Hused).
    set (w2 := snd (NonceManager.generateNonce w1)) in *.
    assert (Hw2 : within_max_age w2).
    { intros k _. rewrite Hclk, Hlast, Hage2, Ha1, Hc1.
      rewrite (Hclock k), (Hclock (S (ticks w1))). lia. }
    rewrite validateNonce_within by exact Hw2. simpl fst. f_equal.
    rewrite Hcur, Hcur1.
    assert (Hm : marked_used 0 w2 = false).
    { unfold marked_used. apply bool_decide_eq_false. rewrite Hu1 in Hused. set_solver. }
    rewrite Hm. reflexivity.
  - unfold VerificationUtils.validateNonce. apply Bool.andb_false_r.
  - intros nonce Hn. unfold VerificationUtils.validateNonce.
    replace (0 <? nonce) with false by (symmetry; apply Z.ltb_ge; exact Hn).
    apply Bool.andb_false_r.
Qed.

Lemma X21_witness :
  fst (NonceManager.generateNonce (snd (NonceManager.new None None MoreExamples.test_world)))
  = Ok 0.
Proof.
  assert (Hclock : forall k, clock MoreExamples.test_world k
                             = clock MoreExamples.test_world (ticks MoreExamples.test_world))
    by reflexivity.
  assert (Hage : 0 <= default (24 * 60 * 60 * 1000) None) by (simpl; lia).
  exact (proj1 (X21_utility_refuses_first_nonce None ∅ MoreExamples.test_world Hclock Hage)).
Defined.

(** ** The three collectors compared *)

Lemma split_at_throw_none (msg : SignableMessage) (wallets before : Wallets.WalletMap) :
  split_at_throw msg wallets = (before, None) -> before = wallets.
Proof.
  revert before. induction wallets as [|kv rest IH]; intros before; simpl.
  - intros H. by injection H as <-.
  - destruct (snd (Wallets.attempt msg (fst kv) (snd kv))); [|discriminate].
    destruct (split_at_throw msg rest) as [b [t|]]; [discriminate|].
    intros H. injection H as <-. f_equal. by apply IH.
Qed.

(** X22. [MultiSignWalletManager.collectSignatures] is the most
    permissive of the three collectors: whenever the hook's collector or
    [WagmiMultiSignStrategy]'s returns a list of entries for a registry,
    the manager's collector returns the same list for the same registry
    after the same wallet calls. *)
Theorem X22_collectors_agree_when_they_return (msg : SignableMessage)
    (wallets : Wallets.WalletMap) (t : Z) (calls : list Wallets.WalletCall)
    (entries : list Wallets.Collected) :
  Wallets.useMultiSignWallet.collectSignatures
    {| Wallets.useMultiSignWallet.connectedWallets := wallets;
       Wallets.useMultiSignWallet.threshold := t |} msg = (calls, Ok entries)
  \/ Wallets.WagmiMultiSignStrategy.collectSignatures
       {| Wallets.WagmiMultiSignStrategy.connectedWallets := wallets;
          Wallets.WagmiMultiSignStrategy.threshold := t |} msg = (calls, Ok entries) ->
  Wallets.MultiSignWalletManager.collectSignatures
    {| Wallets.MultiSignWalletManager.connectedWallets := wallets;
       Wallets.MultiSignWalletManager.threshold := t |} msg = (calls, Ok entries).
Proof.
  unfold Wallets.MultiSignWalletManager.collectSignatures. simpl.
  rewrite manager_collect_loop_eq. simpl app.
  intros [Hhook|Hwagmi].
  - unfold Wallets.useMultiSignWallet.collectSignatures in Hhook. simpl in Hhook.
    rewrite hook_collect_loop_eq in Hhook. simpl app in Hhook.
    destruct (_ && _)%bool in Hhook; [discriminate Hhook|exact Hhook].
  - unfold Wallets.WagmiMultiSignStrategy.collectSignatures in Hwagmi.
    destruct (negb _) in Hwagmi; [discriminate Hwagmi|]. simpl in Hwagmi.
    rewrite wagmi_collect_loop_eq in Hwagmi.
    destruct (split_at_throw msg wallets) as [before [kv|]] eqn:Hs; [discriminate Hwagmi|].
    apply split_at_throw_none in Hs. subst before. exact Hwagmi.
Qed.

Lemma X22_witness :
  Wallets.MultiSignWalletManager.collectSignatures
    {| Wallets.MultiSignWalletManager.connectedWallets :=
         Wallets.useMultiSignWallet.connectedWallets Examples.hook_3;
       Wallets.MultiSignWalletManager.threshold := 2 |} Examples.msg0
  = ([Wallets.CallGetAddress "w1"; Wallets.CallSignTypedData "w1";
      Wallets.CallGetAddress "w2"; Wallets.CallSignTypedData "w2";
      Wallets.CallGetAddress "w3"; Wallets.CallSignTypedData "w3"],
     Ok [{| Wallets.walletId := "w1"; Wallets.address := Examples.alice;
            Wallets.collected_signature := Examples.alice |};
         {| Wallets.walletId := "w3"; Wallets.address := Examples.carol;
            Wallets.collected_signature := Examples.carol |}]).
Proof.
  apply (X22_collectors_agree_when_they_return Examples.msg0
           (Wallets.useMultiSignWallet.connectedWallets Examples.hook_3) 2).
  left. reflexivity.
Defined.

(** ** Addresses for display *)

Lemma length_append (a b : string) :
  String.length (a ++ b) = (String.length a + String.length b)%nat.
Proof. induction a as [|c a IH]; simpl; [reflexivity|by rewrite IH]. Qed.

Lemma length_substring (n m : nat) (s : string) :
  (n + m <= String.length s)%nat -> String.length (String.substring n m s) = m.
Proof.
  revert n m. induction s as [|c s IH]; intros n m Hle; simpl in *.
  - destruct n, m; simpl in *; try lia; reflexivity.
  - destruct n as [|n].
    + destruct m as [|m]; [reflexivity|]. simpl. f_equal. apply IH. simpl. lia.
    + apply IH. lia.
Qed.

Lemma substring_all (s : string) : String.substring 0 (String.length s) s = s.
Proof. induction s as [|c s IH]; simpl; [reflexivity|by rewrite IH]. Qed.

(** X23. [formatAddress] returns a string that is not a well-formed
    address unchanged. For a well-formed address and a length between 1
    and 40 it returns the first [length + 2] characters, three dots and
    the last [length] characters, [2 * length + 5] characters in all;
    with length 0 the part after the dots is the whole address. *)
Theorem X23_formatAddress (address_ : string) (n : Z) :
  0 <= n <= 40 ->
  WalletChecks.formatAddress address_ (Some n)
  = (if WalletChecks.isValidAddress address_
     then String.substring 0 (Z.to_nat (n + 2)) address_ ++ "..."
          ++ (if n =? 0 then address_
              else String.substring (Z.to_nat (42 - n)) (Z.to_nat n) address_)
     else address_)
  /\ (WalletChecks.isValidAddress address_ = true ->
      String.length (WalletChecks.formatAddress address_ (Some n))
      = if n =? 0 then 47%nat else Z.to_nat (2 * n + 5)).
Proof.
  intros Hn.
  assert (Heq : WalletChecks.formatAddress address_ (Some n)
    = (if WalletChecks.isValidAddress address_
       then String.substring 0 (Z.to_nat (n + 2)) address_ ++ "..."
            ++ (if n =? 0 then address_
                else String.substring (Z.to_nat (42 - n)) (Z.to_nat n) address_)
       else address_)).
  { unfold WalletChecks.formatAddress. simpl default.
    destruct (WalletChecks.isValidAddress address_) eqn:Hv; [|reflexivity].
    simpl negb. cbv iota.
    destruct (matches_0x_hex_shape _ _ Hv) as (Hlen & _ & _).
    unfold WalletChecks.slice, WalletChecks.slice_index. rewrite Hlen.
    change (Z.of_nat 42) with 42.
    replace (0 <? 0) with false by reflexivity.
    replace (n + 2 <? 0) with false by (symmetry; apply Z.ltb_ge; lia).
    rewrite (Z.min_l 0 42) by lia. rewrite (Z.min_l (n + 2) 42) by lia.
    rewrite Z.sub_0_r. change (Z.to_nat 0) with 0%nat.
    f_equal. f_equal.
    destruct (Z.eqb_spec n 0) as [->|Hne].
    - change (- 0 <? 0) with false. cbv iota.
      change (Z.to_nat (Z.min (- 0) 42)) with 0%nat.
      change (Z.to_nat (42 - Z.min (- 0) 42)) with 42%nat.
      rewrite <- Hlen. apply substring_all.
    - replace (- n <? 0) with true by (symmetry; apply Z.ltb_lt; lia).
      rewrite Z.max_l by lia. f_equal; lia. }
  split; [exact Heq|].
  intros Hv. rewrite Heq, Hv.
  destruct (matches_0x_hex_shape _ _ Hv) as (Hlen & _ & _).
  rewrite !length_append. rewrite length_substring by (rewrite Hlen; lia).
  destruct (Z.eqb_spec n 0) as [->|Hne].
  - rewrite Hlen. reflexivity.
  - rewrite length_substring by (rewrite Hlen; lia). simpl String.length. lia.
Qed.

Lemma X23_witness :
  WalletChecks.formatAddress MoreExamples.valid_address (Some 6) = "0x123456...cdef12"
  /\ WalletChecks.formatAddress MoreExamples.valid_address (Some 0)
     = "0x..." ++ MoreExamples.valid_address.
Proof.
  assert (H6 : 0 <= 6 <= 40) by lia. assert (H0 : 0 <= 0 <= 40) by lia.
  split.
  - exact (proj1 (X23_formatAddress MoreExamples.valid_address 6 H6)).
  - exact (proj1 (X23_formatAddress MoreExamples.valid_address 0 H0)).
Defined.

(** ** Domain configurations as objects *)

(** X24. [new DomainConfig(...)] makes an object of its own: [getDomain]
    on it returns the arguments of the constructor, with "EngineDex" and
    "1.0" for an omitted name and version; the configurations that
    existed stay as they were, and no operation on the new object changes
    any of them. *)
Theorem X24_new_DomainConfig (name_ version_ : option string) (chainId_ : Z)
    (verifyingContract_ : string) (w : World) :
  exists (this : nat) (w1 : World),
    DomainConfig.new name_ version_ chainId_ verifyingContract_ w = (Ok this, w1)
    /\ domainConfigs w !! this = None
    /\ fst (DomainConfig.getDomain this w1)
       = Ok {| name := default "EngineDex" name_; version := default "1.0" version_;
               chainId := chainId_; verifyingContract := verifyingContract_ |}
    /\ forall (other : nat) (d : EIP712Domain) (op : DomainOp),
         domainConfigs w !! other = Some d ->
         domainConfigs (snd (run_DomainOp op this w1)) !! other = Some d.
Proof.
  set (this := fresh (dom (domainConfigs w))).
  assert (Hfresh : domainConfigs w !! this = None).
  { apply not_elem_of_dom. apply is_fresh. }
  eexists this, _. split; [reflexivity|]. split; [exact Hfresh|]. split.
  - unfold DomainConfig.getDomain, DomainConfig.read, mbind, M_bind, mret, M_ret. simpl.
    fold this. rewrite lookup_insert_eq. reflexivity.
  - intros other d op Hother.
    assert (Hne : this <> other) by (intros ->; congruence).
    erewrite run_DomainOp_heap by (simpl; fold this; apply lookup_insert_eq).
    simpl. fold this. rewrite insert_insert_eq.
    rewrite lookup_insert_ne by exact Hne. exact Hother.
Qed.

Lemma X24_witness :
  exists (this : nat) (w1 : World),
    DomainConfig.new None None 5 MoreExamples.valid_address Examples.fresh_world = (Ok this, w1)
    /\ domainConfigs (snd (run_DomainOp (OpUpdateChainId 7) this w1)) !! 0%nat
       = Some Examples.domain0.
Proof.
  destruct (X24_new_DomainConfig None None 5 MoreExamples.valid_address Examples.fresh_world)
    as (this & w1 & Hnew & _ & _ & Hother).
  exists this, w1. split; [exact Hnew|].
  exact (Hother 0%nat Examples.domain0 (OpUpdateChainId 7) eq_refl).
Defined.

(** X25. The two updates are unchecked: on an existing configuration
    [updateChainId] and [updateVerifyingContract] succeed for any value,
    and [validate] afterwards judges the new value, so that a chain
    identifier that is not positive, or a contract that is not 42
    characters starting with "0x", leaves the configuration invalid. *)
Theorem X25_updates_unchecked (this : nat) (w : World) (d : EIP712Domain)
    (c : Z) (v : string) :
  domainConfigs w !! this = Some d ->
  fst (DomainConfig.updateChainId c this w) = Ok tt
  /\ fst (DomainConfig.updateVerifyingContract v this w) = Ok tt
  /\ fst (DomainConfig.validate this (snd (DomainConfig.updateChainId c this w)))
     = Ok ((0 <? c) && (String.length (verifyingContract d) =? 42)%nat
           && DomainConfig.startsWith "0x" (verifyingContract d))%bool
  /\ fst (DomainConfig.validate this (snd (DomainConfig.updateVerifyingContract v this w)))
     = Ok ((0 <? chainId d) && (String.length v =? 42)%nat
           && DomainConfig.startsWith "0x" v)%bool.
Proof.
  intros Hd.
  unfold DomainConfig.updateChainId, DomainConfig.updateVerifyingContract,
    DomainConfig.validate, DomainConfig.read, DomainConfig.write, mbind, M_bind, mret, M_ret.
  rewrite Hd. simpl. rewrite !lookup_insert_eq. repeat split.
Qed.

Lemma X25_witness :
  fst (DomainConfig.validate 0%nat
         (snd (DomainConfig.updateChainId 0 0%nat Examples.fresh_world))) = Ok false.
Proof.
  exact (proj1 (proj2 (proj2 (X25_updates_unchecked 0%nat Examples.fresh_world
                                Examples.domain0 0 "0x" eq_refl)))).
Defined.
